(** * IBM 3705 emulator: DLSw router, Line Interface Base and Type 2 scanner

    A shallow embedding of
    - [DLSw/DLSw_rt.c]       (module [DLSw]),
    - [I3705/i3705_lib.c]    (module [LIB]),
    - [I3705/i3705_scan_T2.c] (module [CS2]),
    followed by the properties of the protocol bridging engine.

    Conventions.  C scalars are integers of [Z]; every assignment to a
    [uint8_t], [uint16_t] or [int] variable writes the wrap-around out
    ([u8], [u16], [int32]).  A byte array is a function from indices to
    cells, read through [rd], which yields the [unsigned char] stored in the
    cell; the bounds of the arrays are stated where a property depends on
    them.  Socket output is recorded as a list of events, in program order;
    what the sockets deliver is an argument of the functions that read
    them.  Trace output ([printf], [fprintf] under [Tdbg_flag] or
    [Sdbg_flag]) has no effect on the state and is left out.

    The headers of the emulator ([sim_defs.h], [i3705_defs.h],
    [i3705_scanner.h]) are not among the sources.  [ON], [OFF] and the RS232
    signal bits are those of [DLSw_rt.c], which speaks the same signal
    protocol; [MAX_LINES] is an argument where the code loops over the
    lines. *)

From Stdlib Require Import ZArith List Bool Lia.
Import ListNotations.
Open Scope Z_scope.

(** ** Machine integers *)

Definition u8 (x : Z) : Z := x mod 256.
Definition u16 (x : Z) : Z := x mod 65536.
(** [int] is 32 bits wide, two's complement. *)
Definition int32 (x : Z) : Z := (x + 2147483648) mod 4294967296 - 2147483648.

(** C truth value of an integer expression. *)
Definition truthy (x : Z) : bool := negb (x =? 0).

(** ** Byte arrays *)

Definition buf := Z -> Z.

(** [b[i]] read as an [unsigned char]. *)
Definition rd (b : buf) (i : Z) : Z := u8 (b i).

(** [b[i] = v]. *)
Definition store (b : buf) (i v : Z) : buf :=
  fun j => if j =? i then u8 v else b j.

(** [memcpy(dst + d, src + s, n)]. *)
Definition memcpy (dst : buf) (d : Z) (src : buf) (s n : Z) : buf :=
  fun j => if (d <=? j) && (j <? d + n) then src (s + (j - d)) else dst j.

(** An initialised array, as in [uint8_t a[] = { ... }]. *)
Definition of_list (l : list Z) : buf :=
  fun j => if j <? 0 then 0 else nth (Z.to_nat j) l 0.

(** The [n] bytes [b[off] .. b[off+n-1]]. *)
Definition bytes (b : buf) (off : Z) (n : nat) : list Z :=
  map (fun i => rd b (off + Z.of_nat i)) (seq 0 n).

(** [sizeof] of an initialised array. *)
Definition sizeof (l : list Z) : Z := Z.of_nat (length l).

Definition OFF : Z := 0.
Definition ON : Z := 1.

(** RS232 signals, aligned with the scanner display register. *)
Definition CTS : Z := 0x80.
Definition RI  : Z := 0x40.
Definition DSR : Z := 0x20.
Definition DCD : Z := 0x10.
Definition RTS : Z := 0x08.
Definition DTR : Z := 0x04.

(** * DLSw_rt.c *)

Module DLSw.

(** Message types *)
Definition CANUREACH    : Z := 0x03.
Definition ICANREACH    : Z := 0x04.
Definition REACH_ACK    : Z := 0x05.
Definition XIDFRAME     : Z := 0x07.
Definition CONTACT      : Z := 0x08.
Definition CONTACTED    : Z := 0x09.
Definition RESTART_DL   : Z := 0x10.
Definition DL_RESTARTED : Z := 0x11.
Definition INFOFRAME    : Z := 0x0A.
Definition HALT_DL      : Z := 0x0E.
Definition DL_HALTED    : Z := 0x0F.
Definition CAP_EXCHANGE : Z := 0x20.
Definition IFCM         : Z := 0x21.

(** SSP flags, frame direction, header constants *)
Definition SSPex    : Z := 0x80.
Definition DIR_TGT  : Z := 0x01.
Definition DIR_ORG  : Z := 0x02.
Definition DLSW_VER : Z := 0x31.
Definition LEN_CTRL : Z := 72.
Definition LEN_INFO : Z := 16.

(** Header fields *)
Definition HDR_VER   : Z := 0x00.
Definition HDR_HLEN  : Z := 0x01.
Definition HDR_MLEN  : Z := 0x02.
Definition HDR_RDLC  : Z := 0x04.
Definition HDR_RDPID : Z := 0x08.
Definition HDR_MTYP  : Z := 0x0E.
Definition HDR_FCB   : Z := 0x0F.
Definition HDR_SFLG  : Z := 0x15.
Definition HDR_OMAC  : Z := 0x1E.
Definition HDR_DIR   : Z := 0x26.
Definition HDR_ODPID : Z := 0x2C.
Definition HDR_ODLC  : Z := 0x30.

(** Flow control fields *)
Definition FCB_FCI : Z := 0x80.
Definition FCB_FCA : Z := 0x40.
Definition FCB_FCO : Z := 0x07.
Definition FCO_RPT : Z := 0x00.
Definition FCO_INC : Z := 0x01.
Definition FCO_DEC : Z := 0x02.
Definition FCO_RST : Z := 0x03.
Definition FCO_HLV : Z := 0x04.

(** Capabilities exchange subfields *)
Definition CAP_VID : Z := 0x81.
Definition CAP_VER : Z := 0x82.
Definition CAP_IPW : Z := 0x83.
Definition CAP_SSL : Z := 0x86.
Definition CAP_TCP : Z := 0x87.
Definition CAP_IPW_OFF : Z := 0x0D.

Definition CONTROL_MSG_Hdr : list Z :=
     [ DLSW_VER; 0x48; 0x00; 0x26; 0x00; 0x00; 0x00; 0x00 ]   (* 0x00 - 0x07 *)
  ++ [ 0x00; 0x00; 0x00; 0x00; 0x00; 0x00; 0x00; 0x00 ]       (* 0x08 - 0x0F *)
  ++ [ 0x42; 0x01; 0x00; 0x00; 0x00; 0x00; 0x00; 0x00 ]       (* 0x10 - 0x17 *)
  ++ [ 0x00; 0x00; 0x00; 0x00; 0x00; 0x00; 0x00; 0x00 ]       (* 0x18 - 0x1F *)
  ++ [ 0x00; 0x00; 0x00; 0x00; 0x00; 0x00; 0x01; 0x00 ]       (* 0x20 - 0x27 *)
  ++ [ 0x00; 0x00; 0x00; 0x00; 0x00; 0x00; 0x00; 0x00 ]       (* 0x28 - 0x2F *)
  ++ [ 0x00; 0x00; 0x00; 0x00; 0x00; 0x00; 0x00; 0x00 ]       (* 0x30 - 0x37 *)
  ++ [ 0x00; 0x00; 0x00; 0x00; 0x00; 0x00; 0x00; 0x00 ]       (* 0x38 - 0x3F *)
  ++ [ 0x00; 0x00; 0x00; 0x00; 0x00; 0x00; 0x00; 0x00 ].      (* 0x40 - 0x47 *)

Definition CAP_EXCHANGE_Msg : list Z :=
     [ 0x00; 0x26; 0x15; 0x20; 0x05; CAP_VID; 0x00; 0x00 ]
  ++ [ 0x00; 0x04; CAP_VER; 0x02; 0x00; 0x04; CAP_IPW; 0x00 ]
  ++ [ 0x14; 0x12; CAP_SSL; 0xFF; 0xFF; 0xFF; 0xFF; 0xFF ]
  ++ [ 0xFF; 0xFF; 0xFF; 0xFF; 0xFF; 0xFF; 0xFF; 0xFF ]
  ++ [ 0xFF; 0xFF; 0xFF; 0x03; CAP_TCP; 0x02 ].

Definition CAP_EXCHANGE_Rsp : list Z := [ 0x00; 0x4; 0x15; 0x21 ].

Definition XIDFRAME_Rsp : list Z :=
     [ 0x14; 0x01; 0x00; 0x00; 0x00; 0x00; 0x00; 0x00 ]
  ++ [ 0x00; 0x00; 0x00; 0x00; 0x00; 0x00; 0x00; 0x00 ]
  ++ [ 0x00; 0x00; 0x00; 0x00 ].

Definition INFOFRAME_Hdr : list Z :=
     [ DLSW_VER; 0x10; 0x00; 0x00; 0x00; 0x00; 0x00; 0x00 ]   (* 0x00 - 0x07 *)
  ++ [ 0x00; 0x00; 0x00; 0x00; 0x00; 0x00; 0x00; 0x00 ].      (* 0x08 - 0x0F *)

Definition SDLC_FCSLT : list Z := [ 0x47; 0x0F; 0x7E ].

(** SDLC frame definition *)
Definition BFlag  : Z := 0.
Definition FAddr  : Z := 1.
Definition FCntl  : Z := 2.
Definition CPoll  : Z := 0x10.
Definition CFinal : Z := 0x10.
Definition SNRM   : Z := 0x83.
Definition UA     : Z := 0x63.

(** DLSw states *)
Definition DISCONNECTED        : Z := 0.
Definition CIRCUIT_PENDING     : Z := 1.
Definition CIRCUIT_START       : Z := 2.
Definition CIRCUIT_RESTART     : Z := 3.
Definition CIRCUIT_ESTABLISHED : Z := 4.
Definition CONNECT_PENDING     : Z := 5.
Definition CONNECTED           : Z := 6.

(** The file-scope variables that [proc_DLSw] and the receive path of
    [main] read or write. *)
Record globals : Type := Build_globals {
  dlc : buf;                  (* uint8_t dlc[4]      data link correlator *)
  dlc_pid : buf;              (* uint8_t dlc_pid[4]  DLC port id          *)
  SDLC_wbuf : buf;            (* uint8_t [65536]     SDLC write buffer    *)
  DLSw_wbuf : buf;            (* uint8_t [65536]     DLSw write buffer    *)
  SDLCwlen : Z;               (* uint16_t *)
  IFRAMlen : Z;               (* uint16_t *)
  fc_byte : Z;                (* uint8_t  *)
  fca_owed : Z;               (* int *)
  fca_due : Z;                (* int *)
  fc_init_window_size : Z;    (* int *)
  fc_current_window : Z;      (* int *)
  rp_granted_units : Z;       (* int *)
  lp_granted_units : Z;       (* int *)
  flow_control : Z;           (* int *)
  conlfd : Z;                 (* int *)
  seq_Nr : Z;                 (* uint8_t *)
  seq_Ns : Z;                 (* uint8_t *)
  state : Z;                  (* int *)
  IDBLK : Z;                  (* uint16_t *)
  IDNUM : Z;                  (* uint16_t *)
  PUtype : Z;                 (* uint8_t *)
  rs232_stat : Z              (* uint8_t *)
}.

Definition set_dlc (v : buf) (g : globals) : globals :=
  Build_globals v (dlc_pid g) (SDLC_wbuf g) (DLSw_wbuf g) (SDLCwlen g)
  (IFRAMlen g) (fc_byte g) (fca_owed g) (fca_due g) (fc_init_window_size g)
  (fc_current_window g) (rp_granted_units g) (lp_granted_units g)
  (flow_control g) (conlfd g) (seq_Nr g) (seq_Ns g) (state g) (IDBLK g) (IDNUM
  g) (PUtype g) (rs232_stat g).
Definition set_dlc_pid (v : buf) (g : globals) : globals :=
  Build_globals (dlc g) v (SDLC_wbuf g) (DLSw_wbuf g) (SDLCwlen g) (IFRAMlen
  g) (fc_byte g) (fca_owed g) (fca_due g) (fc_init_window_size g)
  (fc_current_window g) (rp_granted_units g) (lp_granted_units g)
  (flow_control g) (conlfd g) (seq_Nr g) (seq_Ns g) (state g) (IDBLK g) (IDNUM
  g) (PUtype g) (rs232_stat g).
Definition set_SDLC_wbuf (v : buf) (g : globals) : globals :=
  Build_globals (dlc g) (dlc_pid g) v (DLSw_wbuf g) (SDLCwlen g) (IFRAMlen g)
  (fc_byte g) (fca_owed g) (fca_due g) (fc_init_window_size g)
  (fc_current_window g) (rp_granted_units g) (lp_granted_units g)
  (flow_control g) (conlfd g) (seq_Nr g) (seq_Ns g) (state g) (IDBLK g) (IDNUM
  g) (PUtype g) (rs232_stat g).
Definition set_DLSw_wbuf (v : buf) (g : globals) : globals :=
  Build_globals (dlc g) (dlc_pid g) (SDLC_wbuf g) v (SDLCwlen g) (IFRAMlen g)
  (fc_byte g) (fca_owed g) (fca_due g) (fc_init_window_size g)
  (fc_current_window g) (rp_granted_units g) (lp_granted_units g)
  (flow_control g) (conlfd g) (seq_Nr g) (seq_Ns g) (state g) (IDBLK g) (IDNUM
  g) (PUtype g) (rs232_stat g).
Definition set_SDLCwlen (v : Z) (g : globals) : globals :=
  Build_globals (dlc g) (dlc_pid g) (SDLC_wbuf g) (DLSw_wbuf g) v (IFRAMlen g)
  (fc_byte g) (fca_owed g) (fca_due g) (fc_init_window_size g)
  (fc_current_window g) (rp_granted_units g) (lp_granted_units g)
  (flow_control g) (conlfd g) (seq_Nr g) (seq_Ns g) (state g) (IDBLK g) (IDNUM
  g) (PUtype g) (rs232_stat g).
Definition set_IFRAMlen (v : Z) (g : globals) : globals :=
  Build_globals (dlc g) (dlc_pid g) (SDLC_wbuf g) (DLSw_wbuf g) (SDLCwlen g) v
  (fc_byte g) (fca_owed g) (fca_due g) (fc_init_window_size g)
  (fc_current_window g) (rp_granted_units g) (lp_granted_units g)
  (flow_control g) (conlfd g) (seq_Nr g) (seq_Ns g) (state g) (IDBLK g) (IDNUM
  g) (PUtype g) (rs232_stat g).
Definition set_fc_byte (v : Z) (g : globals) : globals :=
  Build_globals (dlc g) (dlc_pid g) (SDLC_wbuf g) (DLSw_wbuf g) (SDLCwlen g)
  (IFRAMlen g) v (fca_owed g) (fca_due g) (fc_init_window_size g)
  (fc_current_window g) (rp_granted_units g) (lp_granted_units g)
  (flow_control g) (conlfd g) (seq_Nr g) (seq_Ns g) (state g) (IDBLK g) (IDNUM
  g) (PUtype g) (rs232_stat g).
Definition set_fca_owed (v : Z) (g : globals) : globals :=
  Build_globals (dlc g) (dlc_pid g) (SDLC_wbuf g) (DLSw_wbuf g) (SDLCwlen g)
  (IFRAMlen g) (fc_byte g) v (fca_due g) (fc_init_window_size g)
  (fc_current_window g) (rp_granted_units g) (lp_granted_units g)
  (flow_control g) (conlfd g) (seq_Nr g) (seq_Ns g) (state g) (IDBLK g) (IDNUM
  g) (PUtype g) (rs232_stat g).
Definition set_fca_due (v : Z) (g : globals) : globals :=
  Build_globals (dlc g) (dlc_pid g) (SDLC_wbuf g) (DLSw_wbuf g) (SDLCwlen g)
  (IFRAMlen g) (fc_byte g) (fca_owed g) v (fc_init_window_size g)
  (fc_current_window g) (rp_granted_units g) (lp_granted_units g)
  (flow_control g) (conlfd g) (seq_Nr g) (seq_Ns g) (state g) (IDBLK g) (IDNUM
  g) (PUtype g) (rs232_stat g).
Definition set_fc_init_window_size (v : Z) (g : globals) : globals :=
  Build_globals (dlc g) (dlc_pid g) (SDLC_wbuf g) (DLSw_wbuf g) (SDLCwlen g)
  (IFRAMlen g) (fc_byte g) (fca_owed g) (fca_due g) v (fc_current_window g)
  (rp_granted_units g) (lp_granted_units g) (flow_control g) (conlfd g)
  (seq_Nr g) (seq_Ns g) (state g) (IDBLK g) (IDNUM g) (PUtype g) (rs232_stat
  g).
Definition set_fc_current_window (v : Z) (g : globals) : globals :=
  Build_globals (dlc g) (dlc_pid g) (SDLC_wbuf g) (DLSw_wbuf g) (SDLCwlen g)
  (IFRAMlen g) (fc_byte g) (fca_owed g) (fca_due g) (fc_init_window_size g) v
  (rp_granted_units g) (lp_granted_units g) (flow_control g) (conlfd g)
  (seq_Nr g) (seq_Ns g) (state g) (IDBLK g) (IDNUM g) (PUtype g) (rs232_stat
  g).
Definition set_rp_granted_units (v : Z) (g : globals) : globals :=
  Build_globals (dlc g) (dlc_pid g) (SDLC_wbuf g) (DLSw_wbuf g) (SDLCwlen g)
  (IFRAMlen g) (fc_byte g) (fca_owed g) (fca_due g) (fc_init_window_size g)
  (fc_current_window g) v (lp_granted_units g) (flow_control g) (conlfd g)
  (seq_Nr g) (seq_Ns g) (state g) (IDBLK g) (IDNUM g) (PUtype g) (rs232_stat
  g).
Definition set_lp_granted_units (v : Z) (g : globals) : globals :=
  Build_globals (dlc g) (dlc_pid g) (SDLC_wbuf g) (DLSw_wbuf g) (SDLCwlen g)
  (IFRAMlen g) (fc_byte g) (fca_owed g) (fca_due g) (fc_init_window_size g)
  (fc_current_window g) (rp_granted_units g) v (flow_control g) (conlfd g)
  (seq_Nr g) (seq_Ns g) (state g) (IDBLK g) (IDNUM g) (PUtype g) (rs232_stat
  g).
Definition set_flow_control (v : Z) (g : globals) : globals :=
  Build_globals (dlc g) (dlc_pid g) (SDLC_wbuf g) (DLSw_wbuf g) (SDLCwlen g)
  (IFRAMlen g) (fc_byte g) (fca_owed g) (fca_due g) (fc_init_window_size g)
  (fc_current_window g) (rp_granted_units g) (lp_granted_units g) v (conlfd g)
  (seq_Nr g) (seq_Ns g) (state g) (IDBLK g) (IDNUM g) (PUtype g) (rs232_stat
  g).
Definition set_seq_Nr (v : Z) (g : globals) : globals :=
  Build_globals (dlc g) (dlc_pid g) (SDLC_wbuf g) (DLSw_wbuf g) (SDLCwlen g)
  (IFRAMlen g) (fc_byte g) (fca_owed g) (fca_due g) (fc_init_window_size g)
  (fc_current_window g) (rp_granted_units g) (lp_granted_units g)
  (flow_control g) (conlfd g) v (seq_Ns g) (state g) (IDBLK g) (IDNUM g)
  (PUtype g) (rs232_stat g).
Definition set_seq_Ns (v : Z) (g : globals) : globals :=
  Build_globals (dlc g) (dlc_pid g) (SDLC_wbuf g) (DLSw_wbuf g) (SDLCwlen g)
  (IFRAMlen g) (fc_byte g) (fca_owed g) (fca_due g) (fc_init_window_size g)
  (fc_current_window g) (rp_granted_units g) (lp_granted_units g)
  (flow_control g) (conlfd g) (seq_Nr g) v (state g) (IDBLK g) (IDNUM g)
  (PUtype g) (rs232_stat g).
Definition set_state (v : Z) (g : globals) : globals :=
  Build_globals (dlc g) (dlc_pid g) (SDLC_wbuf g) (DLSw_wbuf g) (SDLCwlen g)
  (IFRAMlen g) (fc_byte g) (fca_owed g) (fca_due g) (fc_init_window_size g)
  (fc_current_window g) (rp_granted_units g) (lp_granted_units g)
  (flow_control g) (conlfd g) (seq_Nr g) (seq_Ns g) v (IDBLK g) (IDNUM g)
  (PUtype g) (rs232_stat g).
Definition set_IDBLK (v : Z) (g : globals) : globals :=
  Build_globals (dlc g) (dlc_pid g) (SDLC_wbuf g) (DLSw_wbuf g) (SDLCwlen g)
  (IFRAMlen g) (fc_byte g) (fca_owed g) (fca_due g) (fc_init_window_size g)
  (fc_current_window g) (rp_granted_units g) (lp_granted_units g)
  (flow_control g) (conlfd g) (seq_Nr g) (seq_Ns g) (state g) v (IDNUM g)
  (PUtype g) (rs232_stat g).
Definition set_IDNUM (v : Z) (g : globals) : globals :=
  Build_globals (dlc g) (dlc_pid g) (SDLC_wbuf g) (DLSw_wbuf g) (SDLCwlen g)
  (IFRAMlen g) (fc_byte g) (fca_owed g) (fca_due g) (fc_init_window_size g)
  (fc_current_window g) (rp_granted_units g) (lp_granted_units g)
  (flow_control g) (conlfd g) (seq_Nr g) (seq_Ns g) (state g) (IDBLK g) v
  (PUtype g) (rs232_stat g).
Definition set_PUtype (v : Z) (g : globals) : globals :=
  Build_globals (dlc g) (dlc_pid g) (SDLC_wbuf g) (DLSw_wbuf g) (SDLCwlen g)
  (IFRAMlen g) (fc_byte g) (fca_owed g) (fca_due g) (fc_init_window_size g)
  (fc_current_window g) (rp_granted_units g) (lp_granted_units g)
  (flow_control g) (conlfd g) (seq_Nr g) (seq_Ns g) (state g) (IDBLK g) (IDNUM
  g) v (rs232_stat g).

(** What the router puts on its sockets. *)
Inductive event : Type :=
| send_dlsw (msg : list Z)      (* send(dlsw_wfd, DLSw_wbuf, n, 0) *)
| send_rs232 (signal : Z)       (* send(rs232_fd, &signal, 1, 0)   *)
| send_line (frame : list Z).   (* send(line_fd, SDLC_wbuf, n, 0)  *)

Definition MSG_type (rbuf : buf) : Z := rd rbuf HDR_MTYP.
Definition MSG_len (rbuf : buf) : Z :=
  u16 (Z.shiftl (rd rbuf HDR_MLEN) 8 + rd rbuf (HDR_MLEN + 1)).
Definition HDR_len (rbuf : buf) : Z := rd rbuf HDR_HLEN.

(** [proc_DLSw], first part: flow control (RFC 1795, section 8.7).
    Returns the globals, the local [DLSwwlen] and the messages sent. *)
Definition flow_control_rx (rbuf : buf) (g : globals)
  : globals * Z * list event :=
  let g := set_fc_byte 0x00 g in
  let g :=
    if truthy (Z.land (rd rbuf HDR_FCB) FCB_FCI)
    then set_fca_due 1 (set_fc_byte (u8 (Z.lor (fc_byte g) FCB_FCA)) g)
    else g in
  if truthy (flow_control g) then
    let g := set_rp_granted_units (int32 (rp_granted_units g - 1)) g in
    let g :=
      if truthy (Z.land (rd rbuf HDR_FCB) FCB_FCA)
      then (if truthy (fca_owed g) then set_fca_owed 0 g else g)
      else g in
    if negb (truthy (fca_owed g)) then
      if rp_granted_units g <=? fc_current_window g then
        let w := memcpy (DLSw_wbuf g) 0 (of_list INFOFRAME_Hdr) 0
                        (sizeof INFOFRAME_Hdr) in
        let w := store w HDR_MTYP IFCM in
        let w := store w HDR_FCB (Z.lor FCB_FCI FCO_RPT) in
        let g := set_fca_owed 1 g in
        let g := set_rp_granted_units
                   (int32 (rp_granted_units g + fc_current_window g)) g in
        let w := memcpy w HDR_RDLC (dlc g) 0 4 in
        let w := memcpy w HDR_RDPID (dlc_pid g) 0 4 in
        let w := store w HDR_MLEN 0x00 in
        let w := store w (HDR_MLEN + 1) 0x00 in
        let DLSwwlen := sizeof INFOFRAME_Hdr in
        (set_DLSw_wbuf w g, DLSwwlen,
         [send_dlsw (bytes w 0 (Z.to_nat DLSwwlen))])
      else (g, 0, [])
    else (g, 0, [])
  else (g, 0, []).

(** [proc_DLSw], second part: the cases of [switch (MSG_type)]. *)

Definition case_CANUREACH (rbuf : buf) (g : globals) (DLSwwlen : Z)
  : globals * Z * list event :=
  if conlfd g =? ON then
    let w := memcpy (DLSw_wbuf g) 0 rbuf 0 (HDR_len rbuf) in
    let w := store w HDR_MTYP ICANREACH in
    let w := store w HDR_MLEN (Z.land (rd w HDR_MLEN) 0x00) in
    let w := store w (HDR_MLEN + 1) (Z.land (rd w (HDR_MLEN + 1)) 0x00) in
    let w := store w HDR_DIR DIR_ORG in
    let w := store w HDR_SFLG (rd rbuf HDR_SFLG) in
    let w := memcpy w HDR_RDLC rbuf HDR_ODLC 4 in
    let w := memcpy w HDR_RDPID rbuf HDR_ODPID 4 in
    (set_state CIRCUIT_START (set_DLSw_wbuf w g), HDR_len rbuf, [])
  else (g, DLSwwlen, []).

Definition case_REACH_ACK (rbuf : buf) (g : globals) (DLSwwlen : Z)
  : globals * Z * list event :=
  let g := set_state CIRCUIT_ESTABLISHED g in
  let g := set_flow_control 1 g in
  let g := set_dlc (memcpy (dlc g) 0 rbuf HDR_ODLC 4) g in
  let g := set_dlc_pid (memcpy (dlc_pid g) 0 rbuf HDR_ODPID 4) g in
  (g, DLSwwlen, []).

Definition case_XIDFRAME (rbuf : buf) (g : globals) (DLSwwlen : Z)
  : globals * Z * list event :=
  let H := HDR_len rbuf in
  if 0 <? MSG_len rbuf then
    let g := set_PUtype (rd rbuf H) g in
    let g := set_IDBLK
               (u16 (Z.shiftl (rd rbuf (H + 2)) 8 + rd rbuf (H + 3))) g in
    let g := set_IDNUM
               (u16 (Z.shiftl (rd rbuf (H + 4)) 8 + rd rbuf (H + 5))) g in
    let w := memcpy (DLSw_wbuf g) 0 rbuf 0 H in
    let w := store w HDR_MTYP CONTACT in
    let w := store w HDR_MLEN (Z.land (rd w HDR_MLEN) 0x00) in
    let w := store w (HDR_MLEN + 1) (Z.land (rd w (HDR_MLEN + 1)) 0x00) in
    let w := store w HDR_DIR DIR_ORG in
    let w := store w HDR_FCB (fc_byte g) in
    let w := memcpy w HDR_RDLC rbuf HDR_ODLC 4 in
    let w := memcpy w HDR_RDPID rbuf HDR_ODPID 4 in
    (set_DLSw_wbuf w g, H, [])
  else
    let w := memcpy (DLSw_wbuf g) 0 rbuf 0 H in
    let w := store w HDR_MTYP XIDFRAME in
    let w := store w HDR_DIR DIR_ORG in
    let w := store w HDR_FCB (fc_byte g) in
    let w := memcpy w HDR_RDLC rbuf HDR_ODLC 4 in
    let w := memcpy w HDR_RDPID rbuf HDR_ODPID 4 in
    let w := memcpy w (sizeof CONTROL_MSG_Hdr) (of_list XIDFRAME_Rsp) 0
                    (sizeof XIDFRAME_Rsp) in
    let w := store w HDR_MLEN
                   (Z.land (Z.shiftr (sizeof XIDFRAME_Rsp) 8) 0xFF) in
    let w := store w (HDR_MLEN + 1) (Z.land (sizeof XIDFRAME_Rsp) 0x00FF) in
    (set_DLSw_wbuf w g, sizeof CONTROL_MSG_Hdr + sizeof XIDFRAME_Rsp, []).

Definition case_CONTACT (rbuf : buf) (g : globals) (DLSwwlen : Z)
  : globals * Z * list event :=
  let w := memcpy (DLSw_wbuf g) 0 rbuf 0 (HDR_len rbuf) in
  let w := store w HDR_MLEN (Z.land (rd w HDR_MLEN) 0x00) in
  let w := store w (HDR_MLEN + 1) (Z.land (rd w (HDR_MLEN + 1)) 0x00) in
  let w := store w HDR_MTYP CONTACT in
  let w := store w HDR_DIR DIR_ORG in
  let w := store w HDR_FCB (fc_byte g) in
  let w := memcpy w HDR_RDLC rbuf HDR_ODLC 4 in
  let w := memcpy w HDR_RDPID rbuf HDR_ODPID 4 in
  (set_state CONNECT_PENDING (set_DLSw_wbuf w g), HDR_len rbuf, []).

Definition case_CONTACTED (rbuf : buf) (g : globals) (DLSwwlen : Z)
  : globals * Z * list event :=
  let g := set_dlc (memcpy (dlc g) 0 rbuf HDR_ODLC 4) g in
  let g := set_dlc_pid (memcpy (dlc_pid g) 0 rbuf HDR_ODPID 4) g in
  let g := set_state CONNECTED g in
  let signal := u8 RTS in
  (g, DLSwwlen, [send_rs232 signal]).

Definition case_ICANREACH (rbuf : buf) (g : globals) (DLSwwlen : Z)
  : globals * Z * list event :=
  let w := memcpy (DLSw_wbuf g) 0 rbuf 0 (HDR_len rbuf) in
  let w := store w HDR_MLEN (Z.land (rd w HDR_MLEN) 0x00) in
  let w := store w (HDR_MLEN + 1) (Z.land (rd w (HDR_MLEN + 1)) 0x00) in
  let w := store w HDR_MTYP REACH_ACK in
  let w := store w HDR_DIR DIR_ORG in
  let w := store w HDR_FCB (fc_byte g) in
  let w := memcpy w HDR_RDLC rbuf HDR_ODLC 4 in
  let w := memcpy w HDR_RDPID rbuf HDR_ODPID 4 in
  (set_DLSw_wbuf w g, HDR_len rbuf, []).

(** The message part after the header becomes an SDLC frame, stored in
    [SDLC_wbuf] behind a two-byte length prefix. *)
Definition case_INFOFRAME (rbuf : buf) (g : globals) (DLSwwlen : Z)
  : globals * Z * list event :=
  let IFRAMlen := u16 (MSG_len rbuf + 6) in
  let s := store (SDLC_wbuf g) (SDLCwlen g) (Z.shiftr IFRAMlen 8) in
  let n := u16 (SDLCwlen g + 1) in
  let s := store s n (Z.land IFRAMlen 0x00FF) in
  let n := u16 (n + 1) in
  let s := memcpy s (n + 3) rbuf (HDR_len rbuf) (MSG_len rbuf) in
  let s := store s (n + BFlag) 0x7E in
  let s := store s (n + FCntl) (0x00 + CFinal) in
  let s := store s (n + FAddr) 0xC1 in
  let s := store s (n + FCntl)
             (Z.lor (Z.land (rd s (n + FCntl)) 0x1F) (Z.shiftl (seq_Nr g) 5)) in
  let s := store s (n + FCntl)
             (Z.lor (Z.land (rd s (n + FCntl)) 0xF1) (Z.shiftl (seq_Ns g) 1)) in
  let s := memcpy s (n + 3 + MSG_len rbuf) (of_list SDLC_FCSLT) 0 3 in
  let Ns := u8 (seq_Ns g + 1) in
  let Ns := if Ns =? 8 then 0 else Ns in
  let n := u16 (n + MSG_len rbuf + 6) in
  (set_SDLCwlen n (set_seq_Ns Ns (set_SDLC_wbuf s (set_IFRAMlen IFRAMlen g))),
   DLSwwlen, []).

Definition case_HALT_DL (rbuf : buf) (g : globals) (DLSwwlen : Z)
  : globals * Z * list event :=
  let w := memcpy (DLSw_wbuf g) 0 rbuf 0 (HDR_len rbuf) in
  let w := store w HDR_MLEN (Z.land (rd w HDR_MLEN) 0x00) in
  let w := store w (HDR_MLEN + 1) (Z.land (rd w (HDR_MLEN + 1)) 0x00) in
  let w := store w HDR_MTYP DL_HALTED in
  let w := store w HDR_DIR DIR_ORG in
  let w := memcpy w HDR_RDLC rbuf HDR_ODLC 4 in
  let w := memcpy w HDR_RDPID rbuf HDR_ODPID 4 in
  let signal := u8 (Z.lnot RTS) in
  (set_DLSw_wbuf w g, HDR_len rbuf, [send_rs232 signal]).

Definition case_RESTART_DL (rbuf : buf) (g : globals) (DLSwwlen : Z)
  : globals * Z * list event :=
  let w := memcpy (DLSw_wbuf g) 0 rbuf 0 (HDR_len rbuf) in
  let w := store w HDR_MLEN (Z.land (rd w HDR_MLEN) 0x00) in
  let w := store w (HDR_MLEN + 1) (Z.land (rd w (HDR_MLEN + 1)) 0x00) in
  let w := store w HDR_MTYP DL_RESTARTED in
  let w := store w HDR_DIR DIR_ORG in
  let w := memcpy w HDR_RDLC rbuf HDR_ODLC 4 in
  let w := memcpy w HDR_RDPID rbuf HDR_ODPID 4 in
  (set_DLSw_wbuf w g, HDR_len rbuf, []).

Definition GDS_id (rbuf : buf) : Z :=
  u16 (Z.lor (Z.shiftl (rd rbuf (HDR_len rbuf + 2)) 8)
             (rd rbuf (HDR_len rbuf + 3))).

Definition case_CAP_EXCHANGE (rbuf : buf) (g : globals) (DLSwwlen : Z)
  : globals * Z * list event :=
  let H := HDR_len rbuf in
  if GDS_id rbuf =? 0x1520 then
    let g := set_fc_init_window_size
               (int32 (Z.shiftl (rd rbuf (H + CAP_IPW_OFF + 2)) 8
                       + rd rbuf (H + CAP_IPW_OFF + 3))) g in
    let g := set_fc_current_window (fc_init_window_size g) g in
    let g := set_rp_granted_units (fc_current_window g) g in
    let g := set_lp_granted_units (fc_current_window g) g in
    let g := set_fca_owed 0 g in
    let w := memcpy (DLSw_wbuf g) 0 (of_list CONTROL_MSG_Hdr) 0
                    (sizeof CONTROL_MSG_Hdr) in
    let w := store w HDR_MTYP CAP_EXCHANGE in
    let w := store w HDR_DIR DIR_TGT in
    let w := memcpy w (sizeof CONTROL_MSG_Hdr) (of_list CAP_EXCHANGE_Rsp) 0
                    (sizeof CAP_EXCHANGE_Rsp) in
    let w := memcpy w HDR_MLEN (of_list CAP_EXCHANGE_Rsp) 0 2 in
    (set_DLSw_wbuf w g, sizeof CONTROL_MSG_Hdr + sizeof CAP_EXCHANGE_Rsp, [])
  else (g, DLSwwlen, []).

Definition switch_MSG_type (rbuf : buf) (g : globals) (DLSwwlen : Z)
  : globals * Z * list event :=
  let t := MSG_type rbuf in
  if t =? CANUREACH then case_CANUREACH rbuf g DLSwwlen
  else if t =? REACH_ACK then case_REACH_ACK rbuf g DLSwwlen
  else if t =? XIDFRAME then case_XIDFRAME rbuf g DLSwwlen
  else if t =? CONTACT then case_CONTACT rbuf g DLSwwlen
  else if t =? CONTACTED then case_CONTACTED rbuf g DLSwwlen
  else if t =? ICANREACH then case_ICANREACH rbuf g DLSwwlen
  else if t =? INFOFRAME then case_INFOFRAME rbuf g DLSwwlen
  else if t =? HALT_DL then case_HALT_DL rbuf g DLSwwlen
  else if t =? RESTART_DL then case_RESTART_DL rbuf g DLSwwlen
  else if t =? CAP_EXCHANGE then case_CAP_EXCHANGE rbuf g DLSwwlen
  else (g, DLSwwlen, []).

(** [int proc_DLSw(DLSw_rbuf, DLSwrlen, DLSw_wbuf)].  The function does not
    use [DLSwrlen]; the write buffer is the file-scope [DLSw_wbuf]; the
    result is the length of the reply left in it. *)
Definition proc_DLSw (rbuf : buf) (g : globals)
  : globals * Z * list event :=
  let '(g1, DLSwwlen1, tr1) := flow_control_rx rbuf g in
  let '(g2, DLSwwlen2, tr2) := switch_MSG_type rbuf g1 DLSwwlen1 in
  (g2, DLSwwlen2, tr1 ++ tr2).

(** [main]: the file-scope variables as the loop finds them first. *)
Definition main_init : globals :=
  {| dlc := fun _ => 0; dlc_pid := fun _ => 0;
     SDLC_wbuf := fun _ => 0; DLSw_wbuf := fun _ => 0;
     SDLCwlen := 0; IFRAMlen := 0; fc_byte := 0; fca_owed := 0; fca_due := 0;
     fc_init_window_size := 0; fc_current_window := 0;
     rp_granted_units := 0; lp_granted_units := 0; flow_control := 0;
     conlfd := OFF; seq_Nr := 0; seq_Ns := 0; state := DISCONNECTED;
     IDBLK := 0; IDNUM := 0; PUtype := 0; rs232_stat := 0 |}.

(** [main]: a message read from the peer is processed and the reply, if
    any, is sent. *)
Definition main_recv (rbuf : buf) (g : globals)
  : globals * list event :=
  let '(g', DLSwwlen, tr) := proc_DLSw rbuf g in
  if negb (DLSwwlen =? 0)
  then (g', tr ++ [send_dlsw (bytes (DLSw_wbuf g') 0 (Z.to_nat DLSwwlen))])
  else (g', tr).

(** [main]: an SNRM frame at [SDLC_rbuf + Fptr] resets the sequence numbers
    and the SDLC write buffer; with the Poll bit it is answered by UA. *)
Definition main_SNRM (SDLC_rbuf : buf) (Fptr : Z) (g : globals)
  : globals * list event :=
  if Z.land (rd SDLC_rbuf (Fptr + FCntl)) 0xEF =? SNRM then
    let '(g, tr) :=
      if truthy (Z.land (rd SDLC_rbuf (Fptr + FCntl)) CPoll) then
        let s := store (SDLC_wbuf g) 0 0x7E in
        let s := store s 1 (rd SDLC_rbuf (Fptr + FAddr)) in
        let s := store s 2 (UA + CFinal) in
        let s := memcpy s 3 (of_list SDLC_FCSLT) 0 (sizeof SDLC_FCSLT) in
        (set_SDLC_wbuf s g, [send_line (bytes s 0 6)])
      else (g, []) in
    let g := set_seq_Nr 0 g in
    let g := set_seq_Ns 0 g in
    let g := set_SDLCwlen 0 g in
    (g, tr)
  else (g, []).

(** Messages received one after the other, each processed by [proc_DLSw];
    the result lists, per message, what [proc_DLSw] itself sent. *)
Fixpoint proc_DLSw_seq (msgs : list buf) (g : globals)
  : globals * list (list event) :=
  match msgs with
  | [] => (g, [])
  | rbuf :: rest =>
      let '(g', _, tr) := proc_DLSw rbuf g in
      let '(g'', trs) := proc_DLSw_seq rest g' in
      (g'', tr :: trs)
  end.

Definition is_IFCM_RPT (e : event) : bool :=
  match e with
  | send_dlsw msg =>
      (nth 14 msg 0 =? IFCM) && (nth 15 msg 0 =? Z.lor FCB_FCI FCO_RPT)
  | _ => false
  end.

(** Number of IFCM messages with the repeat operator among the events. *)
Definition count_IFCM (tr : list event) : Z :=
  Z.of_nat (length (filter is_IFCM_RPT tr)).

(** A message of type [t] sent to the peer; a byte sent on the RS232
    signal connection. *)
Definition is_msg (t : Z) (e : event) : bool :=
  match e with
  | send_dlsw msg => nth 14 msg 0 =? t
  | _ => false
  end.

Definition is_rs232 (e : event) : bool :=
  match e with
  | send_rs232 _ => true
  | _ => false
  end.

Definition is_INFOFRAME (rbuf : buf) : bool := MSG_type rbuf =? INFOFRAME.

(** A capabilities exchange that carries the control vector 0x1520. *)
Definition is_CAP_request (rbuf : buf) : bool :=
  (MSG_type rbuf =? CAP_EXCHANGE) && (GDS_id rbuf =? 0x1520).

(** ** Messages as a peer sends them *)

(** A control message: the 72-byte header with type, flow control byte,
    message length and origin correlator and port id, then the body. *)
Definition control_msg (mtyp fcb : Z) (odlc odpid body : list Z) : buf :=
  let b := of_list (CONTROL_MSG_Hdr ++ body) in
  let b := store b HDR_MTYP mtyp in
  let b := store b HDR_FCB fcb in
  let b := store b HDR_MLEN (Z.shiftr (sizeof body) 8) in
  let b := store b (HDR_MLEN + 1) (Z.land (sizeof body) 0xFF) in
  let b := memcpy b HDR_ODLC (of_list odlc) 0 4 in
  memcpy b HDR_ODPID (of_list odpid) 0 4.

(** An information message: the 16-byte header, then the payload. *)
Definition info_msg (fcb : Z) (payload : list Z) : buf :=
  let b := of_list (INFOFRAME_Hdr ++ payload) in
  let b := store b HDR_MTYP INFOFRAME in
  let b := store b HDR_FCB fcb in
  let b := store b HDR_MLEN (Z.shiftr (sizeof payload) 8) in
  store b (HDR_MLEN + 1) (Z.land (sizeof payload) 0xFF).

(** The capabilities exchange request of [main], with initial pacing
    window [w]. *)
Definition cap_request (w : Z) : buf :=
  let b := control_msg CAP_EXCHANGE 0x00 [0; 0; 0; 0] [0; 0; 0; 0]
             CAP_EXCHANGE_Msg in
  let b := store b (LEN_CTRL + CAP_IPW_OFF + 2) (Z.shiftr w 8) in
  store b (LEN_CTRL + CAP_IPW_OFF + 3) (Z.land w 0xFF).

Definition sample_dlc : list Z := [0x01; 0x02; 0x03; 0x04].
Definition sample_pid : list Z := [0x0A; 0x0B; 0x0C; 0x0D].

Definition reach_ack_msg : buf :=
  control_msg REACH_ACK 0x00 sample_dlc sample_pid [].

Definition halt_dl_msg : buf :=
  control_msg HALT_DL 0x00 sample_dlc sample_pid [].

Definition sample_payload : list Z :=
  [0x2D; 0x00; 0x01; 0x02; 0x6B; 0x80; 0x00; 0x0D; 0x02; 0x01].

Definition contacted_msg : buf :=
  control_msg CONTACTED 0x00 sample_dlc sample_pid [].

Definition sample_infoframe : buf := info_msg 0x00 sample_payload.

Definition five_frames : list buf :=
  [sample_infoframe; sample_infoframe; sample_infoframe; sample_infoframe;
   sample_infoframe].

(** The router once the peer has exchanged capabilities with window [w]
    and acknowledged the circuit: flow control is on. *)
Definition paced (w : Z) : globals :=
  fst (proc_DLSw_seq [cap_request w; reach_ack_msg] main_init).

(** The router of [main] once the peer has reported the station
    contacted: the circuit is CONNECTED. *)
Definition connected : globals :=
  fst (proc_DLSw_seq [contacted_msg] main_init).

End DLSw.

(** * i3705_lib.c *)

(** An array indexed by the line number; [upd a k v] is [a[k] = v]. *)
Definition upd {A : Type} (a : Z -> A) (k : Z) (v : A) : Z -> A :=
  fun j => if j =? k then v else a j.

Module LIB.

Definition BUFLEN_327x : Z := 16384.
Definition LIBLBASE : Z := 20.
Definition SYN : Z := 0x32.

Record LIBLine : Type := Build_LIBLine {
  line_fd : Z;
  linenum : Z;
  d327x_fd : Z;               (* data lead connection         *)
  s327x_fd : Z;               (* RS232 signal lead connection *)
  epoll_fd : Z;
  LIB_rbuf : buf;             (* uint8_t [BUFLEN_327x] *)
  LIB_tbuf : buf;             (* uint8_t [BUFLEN_327x] *)
  LIBrlen : Z;                (* uint16_t *)
  LIBtlen : Z;                (* uint16_t *)
  LIBsync : Z                 (* int8 *)
}.

Definition set_line_fd (v : Z) (s : LIBLine) : LIBLine :=
  Build_LIBLine v (linenum s) (d327x_fd s) (s327x_fd s) (epoll_fd s) (LIB_rbuf
  s) (LIB_tbuf s) (LIBrlen s) (LIBtlen s) (LIBsync s).
Definition set_linenum (v : Z) (s : LIBLine) : LIBLine :=
  Build_LIBLine (line_fd s) v (d327x_fd s) (s327x_fd s) (epoll_fd s) (LIB_rbuf
  s) (LIB_tbuf s) (LIBrlen s) (LIBtlen s) (LIBsync s).
Definition set_d327x_fd (v : Z) (s : LIBLine) : LIBLine :=
  Build_LIBLine (line_fd s) (linenum s) v (s327x_fd s) (epoll_fd s) (LIB_rbuf
  s) (LIB_tbuf s) (LIBrlen s) (LIBtlen s) (LIBsync s).
Definition set_s327x_fd (v : Z) (s : LIBLine) : LIBLine :=
  Build_LIBLine (line_fd s) (linenum s) (d327x_fd s) v (epoll_fd s) (LIB_rbuf
  s) (LIB_tbuf s) (LIBrlen s) (LIBtlen s) (LIBsync s).
Definition set_LIB_rbuf (v : buf) (s : LIBLine) : LIBLine :=
  Build_LIBLine (line_fd s) (linenum s) (d327x_fd s) (s327x_fd s) (epoll_fd s)
  v (LIB_tbuf s) (LIBrlen s) (LIBtlen s) (LIBsync s).
Definition set_LIB_tbuf (v : buf) (s : LIBLine) : LIBLine :=
  Build_LIBLine (line_fd s) (linenum s) (d327x_fd s) (s327x_fd s) (epoll_fd s)
  (LIB_rbuf s) v (LIBrlen s) (LIBtlen s) (LIBsync s).
Definition set_LIBrlen (v : Z) (s : LIBLine) : LIBLine :=
  Build_LIBLine (line_fd s) (linenum s) (d327x_fd s) (s327x_fd s) (epoll_fd s)
  (LIB_rbuf s) (LIB_tbuf s) v (LIBtlen s) (LIBsync s).
Definition set_LIBtlen (v : Z) (s : LIBLine) : LIBLine :=
  Build_LIBLine (line_fd s) (linenum s) (d327x_fd s) (s327x_fd s) (epoll_fd s)
  (LIB_rbuf s) (LIB_tbuf s) (LIBrlen s) v (LIBsync s).
Definition set_LIBsync (v : Z) (s : LIBLine) : LIBLine :=
  Build_LIBLine (line_fd s) (linenum s) (d327x_fd s) (s327x_fd s) (epoll_fd s)
  (LIB_rbuf s) (LIB_tbuf s) (LIBrlen s) (LIBtlen s) v.

(** The file-scope variables of the LIB; the arrays are indexed by line. *)
Record lib : Type := Build_lib {
  LIBline : Z -> LIBLine;     (* struct LIBLine *LIBline[MAX_LINES] *)
  RS232 : Z -> Z;             (* local RS232 signals           *)
  RS232r : Z -> Z;            (* remote RS232 signals          *)
  RS232x : Z -> Z;            (* transmit flag for the signals *)
  prev_state : Z
}.

Definition set_LIBline (k : Z) (v : LIBLine) (s : lib) : lib :=
  Build_lib (upd (LIBline s) k v) (RS232 s) (RS232r s) (RS232x s) (prev_state
  s).
Definition set_RS232 (k : Z) (v : Z) (s : lib) : lib :=
  Build_lib (LIBline s) (upd (RS232 s) k v) (RS232r s) (RS232x s) (prev_state
  s).
Definition set_RS232r (k : Z) (v : Z) (s : lib) : lib :=
  Build_lib (LIBline s) (RS232 s) (upd (RS232r s) k v) (RS232x s) (prev_state
  s).
Definition set_RS232x (k : Z) (v : Z) (s : lib) : lib :=
  Build_lib (LIBline s) (RS232 s) (RS232r s) (upd (RS232x s) k v) (prev_state
  s).
Definition set_prev_state (v : Z) (s : lib) : lib :=
  Build_lib (LIBline s) (RS232 s) (RS232r s) (RS232x s) v.

(** What the sockets of a line hold when the LIB or the scanner looks:
    whether [getpeername] still succeeds on the data and on the signal
    connection, the bytes pending on each, and whether [epoll_ctl]
    succeeds. *)
Record net : Type := Build_net {
  d_alive : bool;
  d_pending : list Z;
  s_alive : bool;
  s_pending : list Z;
  epoll_ok : bool
}.

(** What the LIB does on the sockets of line [k]. *)
Inductive event : Type :=
| send_data (k : Z) (frame : list Z)   (* send(d327x_fd, LIB_tbuf, LIBtlen, 0) *)
| send_signal (k : Z) (sig : Z)        (* send(s327x_fd, &RS232r[k], 1, 0)     *)
| close_data (k : Z)                   (* close(d327x_fd)                      *)
| close_signal (k : Z)                 (* close(s327x_fd)                      *)
| epoll_mod (k : Z)                    (* epoll_ctl(.., EPOLL_CTL_MOD, ..)     *)
| close_epoll (k : Z).                 (* close(epoll_fd)                      *)

Definition proc_LIBdisbuf (k : Z) (s : lib) : lib :=
  if negb (LIBrlen (LIBline s k) =? 0)
  then set_LIBline k (set_LIBrlen 0 (LIBline s k)) s
  else s.

(** [for (i = 1; i < len; i++) buffer[i - 1] = buffer[i];] with [n]
    iterations left. *)
Fixpoint ShiftLeft_loop (n : nat) (i : Z) (buffer : buf) : buf :=
  match n with
  | O => buffer
  | S n' => ShiftLeft_loop n' (i + 1) (store buffer (i - 1) (rd buffer i))
  end.

Definition ShiftLeft (buffer : buf) (len : Z) : buf * Z :=
  (ShiftLeft_loop (Z.to_nat (len - 1)) 1 buffer, len - 1).

Definition IsSocketConnected (sockfd : Z) (alive : bool) : bool :=
  if sockfd <? 1 then false else alive.

(** The three signals a lost connection takes down. *)
Definition drop_DCD_DSR_RI (x : Z) : Z :=
  u8 (Z.land x (Z.lnot (Z.lor (Z.lor DCD DSR) RI))).

(** [ReadSig], first part: the local DCE follows the DTR and RTS of the
    scanner.  The four rules, in the order of the source. *)
Definition DTR_raises_DSR (k : Z) (s : lib) : lib :=
  if truthy (Z.land (RS232 s k) DTR) && negb (truthy (Z.land (RS232 s k) DSR))
  then set_RS232 k (u8 (Z.lor (RS232 s k) DSR)) s
  else s.

Definition RTS_goes_remote (k : Z) (s : lib) : lib :=
  if truthy (Z.land (RS232 s k) RTS) && negb (truthy (Z.land (RS232 s k) CTS))
  then
    let s := set_RS232r k (u8 (Z.lor (RS232r s k) RTS)) s in
    set_RS232x k 1 s
  else s.

Definition DTR_drops_DSR (k : Z) (s : lib) : lib :=
  if negb (truthy (Z.land (RS232 s k) DTR)) && truthy (Z.land (RS232 s k) DSR)
  then set_RS232 k (u8 (Z.land (RS232 s k) (Z.lnot DSR))) s
  else s.

Definition DTR_drops_RTS (k : Z) (s : lib) : lib :=
  if negb (truthy (Z.land (RS232 s k) DTR)) && truthy (Z.land (RS232 s k) RTS)
  then
    let s := set_RS232 k (u8 (Z.land (RS232 s k) (Z.lnot RTS))) s in
    let s := set_RS232r k (u8 (Z.land (RS232r s k) (Z.lnot CTS))) s in
    set_RS232x k 1 s
  else s.

Definition ReadSig_local (k : Z) (s : lib) : lib :=
  let s := set_RS232x k 0 s in
  let s := DTR_raises_DSR k s in
  let s := RTS_goes_remote k s in
  let s := DTR_drops_DSR k s in
  DTR_drops_RTS k s.

(** [ReadSig], second part: the signal connection. *)
Definition ReadSig (k : Z) (n : net) (s : lib) : lib * list event :=
  let s := ReadSig_local k s in
  if 0 <? s327x_fd (LIBline s k) then
    if IsSocketConnected (s327x_fd (LIBline s k)) (s_alive n) then
      let pendingrcv := Z.of_nat (length (s_pending n)) in
      let s :=
        if 0 <? pendingrcv then
          (* the read loop is under [if (pendingrcv > 1)]; otherwise [rc]
             is still the result of [ioctl], 0 *)
          let rc := if 1 <? pendingrcv then 1 else 0 in
          let sig := u8 (last (s_pending n) 0) in
          if rc =? 1 then
            let s :=
              if truthy (Z.land sig RTS) && truthy (Z.land (RS232 s k) DTR)
                 && (LIBrlen (LIBline s k) =? 0)
              then set_RS232x k 1 (set_RS232r k (u8 (Z.lor (RS232r s k) CTS)) s)
              else s in
            if truthy (Z.land sig CTS) && truthy (Z.land (RS232 s k) DTR)
               && negb (truthy (Z.land (RS232 s k) CTS))
            then set_RS232 k (u8 (Z.lor (RS232 s k) CTS)) s
            else s
          else s
        else s in
      if RS232x s k =? 1
      then (s, [send_signal k (RS232r s k)])
      else (s, [])
    else
      let s := set_LIBline k (set_d327x_fd 0 (LIBline s k)) s in
      let s := set_LIBline k (set_s327x_fd 0 (LIBline s k)) s in
      let s := set_RS232 k (drop_DCD_DSR_RI (RS232 s k)) s in
      (s, [close_data k; close_signal k; epoll_mod k]
          ++ (if epoll_ok n then [] else [close_epoll k]))
  else (s, []).

(** Receive data from the line; the result is the return code. *)
Definition ReadLIB (k : Z) (n : net) (s : lib) : Z * lib * list event :=
  let s := set_LIBline k (set_LIBrlen 0 (LIBline s k)) s in
  let rc := -1 in
  if 0 <? d327x_fd (LIBline s k) then
    if IsSocketConnected (d327x_fd (LIBline s k)) (d_alive n) then
      let pendingrcv := Z.of_nat (length (d_pending n)) in
      let s :=
        if 0 <? pendingrcv then
          (* read(d327x_fd, LIB_rbuf, BUFLEN_327x) *)
          let got := Z.min pendingrcv BUFLEN_327x in
          let l := LIBline s k in
          let l := set_LIB_rbuf
                     (memcpy (LIB_rbuf l) 0 (of_list (d_pending n)) 0 got) l in
          set_LIBline k (set_LIBrlen (u16 got) l) s
        else s in
      (0, s, [])
    else
      let s := set_LIBline k (set_d327x_fd 0 (LIBline s k)) s in
      let s := set_RS232 k (drop_DCD_DSR_RI (RS232 s k)) s in
      if epoll_ok n
      then (-1, s, [close_data k; epoll_mod k])
      else (-1, s, [close_data k; epoll_mod k; close_epoll k])
  else (rc, s, []).

(** Get transmitted character from the scanner. *)
Definition proc_LIBtdata (LIBtchar : Z) (state : Z) (line : Z) (s : lib)
  : lib * list event :=
  let '(s, tr) :=
    if (LIBsync (LIBline s line) =? 1) && ((state =? 0xC) || (state =? 0xD))
    then
      let l := set_LIBsync 0 (LIBline s line) in
      let frame := bytes (LIB_tbuf l) 0 (Z.to_nat (LIBtlen l)) in
      let l := set_LIBtlen 0 l in
      (set_LIBline line l s, [send_data line frame])
    else (s, []) in
  let s :=
    if (LIBsync (LIBline s line) =? 1) && negb (state =? 0x8) then
      let l := LIBline s line in
      let l := set_LIB_tbuf (store (LIB_tbuf l) (LIBtlen l) LIBtchar) l in
      set_LIBline line (set_LIBtlen (u16 (LIBtlen l + 1)) l) s
    else s in
  let s :=
    if (state =? 0x8) && negb (LIBsync (LIBline s line) =? 1) then
      let l := set_LIBsync 1 (LIBline s line) in
      set_LIBline line (set_LIBtlen 0 l) s
    else s in
  (set_prev_state state s, tr).

(** Send received character to the scanner: the return code, the
    character left in [*LIBrchar], the LIB afterwards, the socket events. *)
Definition proc_LIBrdata (LIBrchar : Z) (state : Z) (line : Z) (n : net)
  (s : lib) : Z * Z * lib * list event :=
  let '(s, tr) :=
    if LIBrlen (LIBline s line) =? 0
    then let '(_, s', tr) := ReadLIB line n s in (s', tr)
    else (s, []) in
  if 0 <? LIBrlen (LIBline s line) then
    let LIBrchar := rd (LIB_rbuf (LIBline s line)) 0 in
    let s :=
      if negb ((state =? 0x4) || (state =? 0x5)) then
        let l := LIBline s line in
        let '(b, len) := ShiftLeft (LIB_rbuf l) (LIBrlen l) in
        set_LIBline line (set_LIBrlen (u16 len) (set_LIB_rbuf b l)) s
      else s in
    let rc := if LIBrlen (LIBline s line) =? 0 then 2 else 1 in
    (rc, LIBrchar, s, tr)
  else (0, LIBrchar, s, tr).

(** [LIB_thread], start: the two initialisation loops over the lines.  The
    structures come from [malloc], the descriptors [line_fd] and [epoll_fd]
    from the system: these and the fields not assigned are those of
    [junk]. *)
Definition LIB_thread_init (MAX_LINES : Z) (junk : lib) : lib :=
  let inrange j := (0 <=? j) && (j <? MAX_LINES) in
  {| LIBline := fun j =>
       if inrange j
       then set_LIBsync 0 (set_LIBtlen 0 (set_LIBrlen 0
              (set_linenum j (LIBline junk j))))
       else LIBline junk j;
     RS232 := fun j => if inrange j then 0x00 else RS232 junk j;
     RS232r := RS232r junk;
     RS232x := RS232x junk;
     prev_state := prev_state junk |}.

(** ** Lines as the LIB finds them *)

Definition no_line : LIBLine :=
  {| line_fd := 3; linenum := 0; d327x_fd := 0; s327x_fd := 0; epoll_fd := 4;
     LIB_rbuf := fun _ => 0; LIB_tbuf := fun _ => 0;
     LIBrlen := 0; LIBtlen := 0; LIBsync := 0 |}.

(** Nothing connected, all signals low. *)
Definition idle_lib : lib :=
  {| LIBline := fun _ => no_line; RS232 := fun _ => 0; RS232r := fun _ => 0;
     RS232x := fun _ => 0; prev_state := 0 |}.

(** Line 0 with both connections up and DTR raised by the NCP. *)
Definition online_lib : lib :=
  let l := set_s327x_fd 6 (set_d327x_fd 5 no_line) in
  set_RS232 0 (Z.lor (Z.lor (Z.lor DCD RI) DSR) DTR) (set_LIBline 0 l idle_lib).

(** Line 0 with the frame 7E C1 11 in its receive buffer. *)
Definition received_lib : lib :=
  let l := LIBline online_lib 0 in
  let l := set_LIB_rbuf (of_list [0x7E; 0xC1; 0x11]) l in
  set_LIBline 0 (set_LIBrlen 3 l) online_lib.

(** The sockets with nothing pending; the sockets after the peer is gone. *)
Definition idle_net : net :=
  {| d_alive := true; d_pending := []; s_alive := true; s_pending := [];
     epoll_ok := true |}.

Definition dead_net : net :=
  {| d_alive := false; d_pending := []; s_alive := false; s_pending := [];
     epoll_ok := true |}.

End LIB.

(** * i3705_scan_T2.c *)

Module CS2.

(** Modelled from the spec: the constants [RESET], [TX] and [RX] of the
    line state (section 3, [lne_state]: {RESET, TX, RX}); their definitions
    are in a header that is not part of the sources at hand. *)
Inductive lne_state : Type := RESET | TX | RX.

(** Modelled from the spec: the constants [EMPTY] and [FILLED] of the PDF
    handshake flag (section 3, [pdf_reg]: {EMPTY, FILLED}). *)
Inductive pdf_state : Type := EMPTY | FILLED.

Definition lne_state_eqb (a b : lne_state) : bool :=
  match a, b with
  | RESET, RESET | TX, TX | RX, RX => true
  | _, _ => false
  end.

Definition pdf_state_eqb (a b : pdf_state) : bool :=
  match a, b with
  | EMPTY, EMPTY | FILLED, FILLED => true
  | _, _ => false
  end.

(** [int8] is a signed char. *)
Definition s8 (x : Z) : Z := (x + 128) mod 256 - 128.

(** The variables of the scanner thread: the LIB it drives, the ICW local
    store, the thread's own work variables and the two variables shared
    with the CCU, [svc_req_L2] and [lvl]. *)
Record scanner : Type := Build_scanner {
  L : LIB.lib;
  icw_scf : Z -> Z;           (* ICW[ 0- 7] secondary control field *)
  icw_pdf : Z -> Z;           (* ICW[ 8-15] parallel data field     *)
  icw_lcd : Z -> Z;           (* ICW[16-19] line code definer       *)
  icw_pcf : Z -> Z;           (* ICW[20-23] primary control field   *)
  icw_sdf : Z -> Z;           (* ICW[24-31] serial data field       *)
  icw_Rflags : Z -> Z;        (* ICW[34-47] flags                   *)
  icw_pcf_prev : Z -> Z;
  icw_lne_stat : Z -> lne_state;
  icw_pcf_nxt : Z -> Z;
  icw_pdf_reg : Z -> pdf_state;
  Eflg_rcvd : Z -> Z;         (* int8 *)
  FCS_rcvd0 : Z -> Z;         (* int8 FCS_rcvd[line][0] *)
  FCS_rcvd1 : Z -> Z;         (* int8 FCS_rcvd[line][1] *)
  receivedChar : Z -> Z;      (* unsigned char *)
  transmitChar : Z;           (* unsigned char *)
  CS2_req_L2_int : Z;
  abar_int : Z;
  svc_req_L2 : Z;
  lvl : Z
}.

Definition set_L (v : LIB.lib) (s : scanner) : scanner :=
  Build_scanner v (icw_scf s) (icw_pdf s) (icw_lcd s) (icw_pcf s) (icw_sdf s)
  (icw_Rflags s) (icw_pcf_prev s) (icw_lne_stat s) (icw_pcf_nxt s)
  (icw_pdf_reg s) (Eflg_rcvd s) (FCS_rcvd0 s) (FCS_rcvd1 s) (receivedChar s)
  (transmitChar s) (CS2_req_L2_int s) (abar_int s) (svc_req_L2 s) (lvl s).
Definition set_icw_scf (k : Z) (v : Z) (s : scanner) : scanner :=
  Build_scanner (L s) (upd (icw_scf s) k v) (icw_pdf s) (icw_lcd s) (icw_pcf
  s) (icw_sdf s) (icw_Rflags s) (icw_pcf_prev s) (icw_lne_stat s) (icw_pcf_nxt
  s) (icw_pdf_reg s) (Eflg_rcvd s) (FCS_rcvd0 s) (FCS_rcvd1 s) (receivedChar
  s) (transmitChar s) (CS2_req_L2_int s) (abar_int s) (svc_req_L2 s) (lvl s).
Definition set_icw_pdf (k : Z) (v : Z) (s : scanner) : scanner :=
  Build_scanner (L s) (icw_scf s) (upd (icw_pdf s) k v) (icw_lcd s) (icw_pcf
  s) (icw_sdf s) (icw_Rflags s) (icw_pcf_prev s) (icw_lne_stat s) (icw_pcf_nxt
  s) (icw_pdf_reg s) (Eflg_rcvd s) (FCS_rcvd0 s) (FCS_rcvd1 s) (receivedChar
  s) (transmitChar s) (CS2_req_L2_int s) (abar_int s) (svc_req_L2 s) (lvl s).
Definition set_icw_lcd (k : Z) (v : Z) (s : scanner) : scanner :=
  Build_scanner (L s) (icw_scf s) (icw_pdf s) (upd (icw_lcd s) k v) (icw_pcf
  s) (icw_sdf s) (icw_Rflags s) (icw_pcf_prev s) (icw_lne_stat s) (icw_pcf_nxt
  s) (icw_pdf_reg s) (Eflg_rcvd s) (FCS_rcvd0 s) (FCS_rcvd1 s) (receivedChar
  s) (transmitChar s) (CS2_req_L2_int s) (abar_int s) (svc_req_L2 s) (lvl s).
Definition set_icw_pcf (k : Z) (v : Z) (s : scanner) : scanner :=
  Build_scanner (L s) (icw_scf s) (icw_pdf s) (icw_lcd s) (upd (icw_pcf s) k
  v) (icw_sdf s) (icw_Rflags s) (icw_pcf_prev s) (icw_lne_stat s) (icw_pcf_nxt
  s) (icw_pdf_reg s) (Eflg_rcvd s) (FCS_rcvd0 s) (FCS_rcvd1 s) (receivedChar
  s) (transmitChar s) (CS2_req_L2_int s) (abar_int s) (svc_req_L2 s) (lvl s).
Definition set_icw_sdf (k : Z) (v : Z) (s : scanner) : scanner :=
  Build_scanner (L s) (icw_scf s) (icw_pdf s) (icw_lcd s) (icw_pcf s) (upd
  (icw_sdf s) k v) (icw_Rflags s) (icw_pcf_prev s) (icw_lne_stat s)
  (icw_pcf_nxt s) (icw_pdf_reg s) (Eflg_rcvd s) (FCS_rcvd0 s) (FCS_rcvd1 s)
  (receivedChar s) (transmitChar s) (CS2_req_L2_int s) (abar_int s)
  (svc_req_L2 s) (lvl s).
Definition set_icw_Rflags (k : Z) (v : Z) (s : scanner) : scanner :=
  Build_scanner (L s) (icw_scf s) (icw_pdf s) (icw_lcd s) (icw_pcf s) (icw_sdf
  s) (upd (icw_Rflags s) k v) (icw_pcf_prev s) (icw_lne_stat s) (icw_pcf_nxt
  s) (icw_pdf_reg s) (Eflg_rcvd s) (FCS_rcvd0 s) (FCS_rcvd1 s) (receivedChar
  s) (transmitChar s) (CS2_req_L2_int s) (abar_int s) (svc_req_L2 s) (lvl s).
Definition set_icw_pcf_prev (k : Z) (v : Z) (s : scanner) : scanner :=
  Build_scanner (L s) (icw_scf s) (icw_pdf s) (icw_lcd s) (icw_pcf s) (icw_sdf
  s) (icw_Rflags s) (upd (icw_pcf_prev s) k v) (icw_lne_stat s) (icw_pcf_nxt
  s) (icw_pdf_reg s) (Eflg_rcvd s) (FCS_rcvd0 s) (FCS_rcvd1 s) (receivedChar
  s) (transmitChar s) (CS2_req_L2_int s) (abar_int s) (svc_req_L2 s) (lvl s).
Definition set_icw_lne_stat (k : Z) (v : lne_state) (s : scanner) : scanner :=
  Build_scanner (L s) (icw_scf s) (icw_pdf s) (icw_lcd s) (icw_pcf s) (icw_sdf
  s) (icw_Rflags s) (icw_pcf_prev s) (upd (icw_lne_stat s) k v) (icw_pcf_nxt
  s) (icw_pdf_reg s) (Eflg_rcvd s) (FCS_rcvd0 s) (FCS_rcvd1 s) (receivedChar
  s) (transmitChar s) (CS2_req_L2_int s) (abar_int s) (svc_req_L2 s) (lvl s).
Definition set_icw_pcf_nxt (k : Z) (v : Z) (s : scanner) : scanner :=
  Build_scanner (L s) (icw_scf s) (icw_pdf s) (icw_lcd s) (icw_pcf s) (icw_sdf
  s) (icw_Rflags s) (icw_pcf_prev s) (icw_lne_stat s) (upd (icw_pcf_nxt s) k
  v) (icw_pdf_reg s) (Eflg_rcvd s) (FCS_rcvd0 s) (FCS_rcvd1 s) (receivedChar
  s) (transmitChar s) (CS2_req_L2_int s) (abar_int s) (svc_req_L2 s) (lvl s).
Definition set_icw_pdf_reg (k : Z) (v : pdf_state) (s : scanner) : scanner :=
  Build_scanner (L s) (icw_scf s) (icw_pdf s) (icw_lcd s) (icw_pcf s) (icw_sdf
  s) (icw_Rflags s) (icw_pcf_prev s) (icw_lne_stat s) (icw_pcf_nxt s) (upd
  (icw_pdf_reg s) k v) (Eflg_rcvd s) (FCS_rcvd0 s) (FCS_rcvd1 s) (receivedChar
  s) (transmitChar s) (CS2_req_L2_int s) (abar_int s) (svc_req_L2 s) (lvl s).
Definition set_Eflg_rcvd (k : Z) (v : Z) (s : scanner) : scanner :=
  Build_scanner (L s) (icw_scf s) (icw_pdf s) (icw_lcd s) (icw_pcf s) (icw_sdf
  s) (icw_Rflags s) (icw_pcf_prev s) (icw_lne_stat s) (icw_pcf_nxt s)
  (icw_pdf_reg s) (upd (Eflg_rcvd s) k v) (FCS_rcvd0 s) (FCS_rcvd1 s)
  (receivedChar s) (transmitChar s) (CS2_req_L2_int s) (abar_int s)
  (svc_req_L2 s) (lvl s).
Definition set_FCS_rcvd0 (k : Z) (v : Z) (s : scanner) : scanner :=
  Build_scanner (L s) (icw_scf s) (icw_pdf s) (icw_lcd s) (icw_pcf s) (icw_sdf
  s) (icw_Rflags s) (icw_pcf_prev s) (icw_lne_stat s) (icw_pcf_nxt s)
  (icw_pdf_reg s) (Eflg_rcvd s) (upd (FCS_rcvd0 s) k v) (FCS_rcvd1 s)
  (receivedChar s) (transmitChar s) (CS2_req_L2_int s) (abar_int s)
  (svc_req_L2 s) (lvl s).
Definition set_FCS_rcvd1 (k : Z) (v : Z) (s : scanner) : scanner :=
  Build_scanner (L s) (icw_scf s) (icw_pdf s) (icw_lcd s) (icw_pcf s) (icw_sdf
  s) (icw_Rflags s) (icw_pcf_prev s) (icw_lne_stat s) (icw_pcf_nxt s)
  (icw_pdf_reg s) (Eflg_rcvd s) (FCS_rcvd0 s) (upd (FCS_rcvd1 s) k v)
  (receivedChar s) (transmitChar s) (CS2_req_L2_int s) (abar_int s)
  (svc_req_L2 s) (lvl s).
Definition set_receivedChar (k : Z) (v : Z) (s : scanner) : scanner :=
  Build_scanner (L s) (icw_scf s) (icw_pdf s) (icw_lcd s) (icw_pcf s) (icw_sdf
  s) (icw_Rflags s) (icw_pcf_prev s) (icw_lne_stat s) (icw_pcf_nxt s)
  (icw_pdf_reg s) (Eflg_rcvd s) (FCS_rcvd0 s) (FCS_rcvd1 s) (upd (receivedChar
  s) k v) (transmitChar s) (CS2_req_L2_int s) (abar_int s) (svc_req_L2 s) (lvl
  s).
Definition set_transmitChar (v : Z) (s : scanner) : scanner :=
  Build_scanner (L s) (icw_scf s) (icw_pdf s) (icw_lcd s) (icw_pcf s) (icw_sdf
  s) (icw_Rflags s) (icw_pcf_prev s) (icw_lne_stat s) (icw_pcf_nxt s)
  (icw_pdf_reg s) (Eflg_rcvd s) (FCS_rcvd0 s) (FCS_rcvd1 s) (receivedChar s) v
  (CS2_req_L2_int s) (abar_int s) (svc_req_L2 s) (lvl s).
Definition set_CS2_req_L2_int (v : Z) (s : scanner) : scanner :=
  Build_scanner (L s) (icw_scf s) (icw_pdf s) (icw_lcd s) (icw_pcf s) (icw_sdf
  s) (icw_Rflags s) (icw_pcf_prev s) (icw_lne_stat s) (icw_pcf_nxt s)
  (icw_pdf_reg s) (Eflg_rcvd s) (FCS_rcvd0 s) (FCS_rcvd1 s) (receivedChar s)
  (transmitChar s) v (abar_int s) (svc_req_L2 s) (lvl s).
Definition set_abar_int (v : Z) (s : scanner) : scanner :=
  Build_scanner (L s) (icw_scf s) (icw_pdf s) (icw_lcd s) (icw_pcf s) (icw_sdf
  s) (icw_Rflags s) (icw_pcf_prev s) (icw_lne_stat s) (icw_pcf_nxt s)
  (icw_pdf_reg s) (Eflg_rcvd s) (FCS_rcvd0 s) (FCS_rcvd1 s) (receivedChar s)
  (transmitChar s) (CS2_req_L2_int s) v (svc_req_L2 s) (lvl s).
Definition set_svc_req_L2 (v : Z) (s : scanner) : scanner :=
  Build_scanner (L s) (icw_scf s) (icw_pdf s) (icw_lcd s) (icw_pcf s) (icw_sdf
  s) (icw_Rflags s) (icw_pcf_prev s) (icw_lne_stat s) (icw_pcf_nxt s)
  (icw_pdf_reg s) (Eflg_rcvd s) (FCS_rcvd0 s) (FCS_rcvd1 s) (receivedChar s)
  (transmitChar s) (CS2_req_L2_int s) (abar_int s) v (lvl s).

Definition set_RS232 (k : Z) (v : Z) (s : scanner) : scanner :=
  set_L (LIB.set_RS232 k v (L s)) s.
Definition RS232 (s : scanner) (k : Z) : Z := LIB.RS232 (L s) k.

(** The scanner's calls into the LIB. *)
Definition call_LIBrdata (line : Z) (n : LIB.net) (s : scanner)
  : Z * scanner * list LIB.event :=
  let '(ret, ch, l, tr) :=
    LIB.proc_LIBrdata (receivedChar s line) (icw_pcf s line) line n (L s) in
  (ret, set_receivedChar line ch (set_L l s), tr).

Definition call_LIBtdata (line : Z) (s : scanner)
  : scanner * list LIB.event :=
  let '(l, tr) :=
    LIB.proc_LIBtdata (transmitChar s) (icw_pcf s line) line (L s) in
  (set_L l s, tr).

(** Top of the cycle: a PCF changed by the NCP is adopted. *)
Definition adopt_pcf (line : Z) (s : scanner) : scanner :=
  if negb (icw_pcf s line =? icw_pcf_nxt s line) then
    let s := if icw_pcf_nxt s line =? 0x0
             then set_icw_lne_stat line RESET s else s in
    let s := set_icw_pcf_prev line (icw_pcf s line) s in
    set_icw_pcf line (icw_pcf_nxt s line) s
  else s.

Definition L2_active (s : scanner) : bool :=
  (svc_req_L2 s =? ON) || (lvl s =? 2).

Definition case_1 (line : Z) (s : scanner) : scanner :=
  let s := set_icw_scf line (u8 (Z.land (icw_scf s line) 0x4A)) s in
  let s := set_icw_sdf line (u8 (Z.lor (icw_sdf s line) 0x08)) s in
  let s := set_RS232 line (u8 (Z.lor (RS232 s line) DTR)) s in
  let s := set_icw_scf line (u8 (Z.lor (icw_scf s line) 0x40)) s in
  let s := set_icw_pcf_nxt line 0x0 s in
  set_CS2_req_L2_int ON s.

Definition case_2 (line : Z) (s : scanner) : scanner :=
  if truthy (Z.land (RS232 s line) DCD) then
    let s := set_icw_scf line (u8 (Z.lor (icw_scf s line) 0x08)) s in
    if truthy (Z.land (RS232 s line) DSR) then
      let s := set_icw_scf line (u8 (Z.lor (icw_scf s line) 0x40)) s in
      let s := set_icw_pcf_nxt line 0x4 s in
      set_CS2_req_L2_int ON s
    else
      let s := set_icw_scf line (u8 (Z.lor (icw_scf s line) 0x40)) s in
      let s := set_icw_pcf_nxt line 0x2 s in
      set_CS2_req_L2_int ON s
  else
    let s := set_icw_pcf_nxt line 0x2 s in
    set_icw_scf line (u8 (Z.land (icw_scf s line) 0xF7)) s.

Definition case_3 (line : Z) (s : scanner) : scanner :=
  if negb (icw_pcf_prev s line =? icw_pcf s line) then
    let s := set_icw_scf line (u8 (Z.lor (icw_scf s line) 0x40)) s in
    let s := set_icw_pcf_nxt line 0x0 s in
    set_CS2_req_L2_int ON s
  else s.

Definition case_4_5 (line : Z) (n : LIB.net) (s : scanner)
  : scanner * list LIB.event :=
  if negb (truthy (Z.land (RS232 s line) DSR)) then
    let s := set_icw_scf line (u8 (Z.lor (icw_scf s line) 0x40)) s in
    let s := set_icw_pcf_nxt line 0x2 s in
    (set_CS2_req_L2_int ON s, [])
  else if lne_state_eqb (icw_lne_stat s line) TX then (s, [])
  else if icw_lcd s line =? 0xC then
    let '(ret, s, tr) := call_LIBrdata line n s in
    if negb (ret =? 1) then (s, tr)
    else if receivedChar s line =? 0x32 then
      let s := set_icw_pdf line (receivedChar s line) s in
      let s := set_icw_pcf_nxt line 0x7 s in
      (set_icw_sdf line (u8 (Z.lor (icw_sdf s line) 0x04)) s, tr)
    else (s, tr)
  else if (icw_lcd s line =? 0x8) || (icw_lcd s line =? 0x9) then
    let s := set_Eflg_rcvd line OFF s in
    let '(ret, s, tr) := call_LIBrdata line n s in
    if ret =? 0 then (s, tr)
    else if receivedChar s line =? 0x7E then
      let s := set_icw_scf line (u8 (Z.lor (icw_scf s line) 0x04)) s in
      let s := set_icw_lcd line 0x9 s in
      let s := set_icw_pcf_nxt line 0x6 s in
      (set_CS2_req_L2_int ON s, tr)
    else
      let s := set_L (LIB.proc_LIBdisbuf line (L s)) s in
      (set_icw_pcf_nxt line 0x5 s, tr)
  else (s, []).

Definition case_6 (line : Z) (n : LIB.net) (s : scanner)
  : scanner * list LIB.event :=
  if L2_active s then (s, [])
  else
    let '(ret, s, tr) := call_LIBrdata line n s in
    if ret =? 0 then (s, tr)
    else if receivedChar s line =? 0x7E then
      let s := set_icw_pcf_nxt line 0x6 s in
      (set_icw_scf line (u8 (Z.lor (icw_scf s line) 0x04)) s, tr)
    else
      let s := set_icw_scf line
                 (u8 (Z.land (icw_scf s line) (Z.lnot 0x04))) s in
      let s := set_icw_pdf line (receivedChar s line) s in
      let s := set_icw_pdf_reg line FILLED s in
      let s := set_icw_scf line (u8 (Z.lor (icw_scf s line) 0x40)) s in
      let s := set_icw_pcf_nxt line 0x7 s in
      (set_CS2_req_L2_int ON s, tr).

Definition case_7 (line : Z) (n : LIB.net) (s : scanner)
  : scanner * list LIB.event :=
  if L2_active s then (s, [])
  else if icw_lcd s line =? 0xC then
    if Z.land (icw_scf s line) 0x40 =? 0 then
      let '(ret, s, tr) := call_LIBrdata line n s in
      let s := if negb (ret =? 1) then set_receivedChar line 0xFF s else s in
      let s := set_icw_pdf line (receivedChar s line) s in
      let s := set_icw_scf line (u8 (Z.lor (icw_scf s line) 0x40)) s in
      let s := set_icw_pcf_nxt line 0x7 s in
      (set_CS2_req_L2_int ON s, tr)
    else (s, [])
  else if (icw_lcd s line =? 0x8) || (icw_lcd s line =? 0x9) then
    let '(ret, s, tr) := call_LIBrdata line n s in
    if ret =? 0 then (s, tr)
    else
      let s :=
        if (receivedChar s line =? 0x7E) && (FCS_rcvd0 s line =? 0x47)
           && (FCS_rcvd1 s line =? 0x0F)
        then set_Eflg_rcvd line ON s
        else
          let s := set_FCS_rcvd0 line (FCS_rcvd1 s line) s in
          let s := set_FCS_rcvd1 line (s8 (receivedChar s line)) s in
          set_Eflg_rcvd line OFF s in
      if Eflg_rcvd s line =? ON then
        let s := set_icw_lne_stat line TX s in
        let s := set_icw_scf line (u8 (Z.lor (icw_scf s line) 0x44)) s in
        let s := set_icw_lcd line 0x9 s in
        let s := set_icw_pcf_nxt line 0x6 s in
        let s := set_CS2_req_L2_int ON s in
        let s := set_Eflg_rcvd line OFF s in
        let s := set_FCS_rcvd0 line 0x00 s in
        (set_FCS_rcvd1 line 0x00 s, tr)
      else
        let s := set_icw_pdf line (receivedChar s line) s in
        let s := set_icw_pdf_reg line FILLED s in
        let s := set_icw_scf line (u8 (Z.lor (icw_scf s line) 0x40)) s in
        let s := set_icw_pcf_nxt line 0x7 s in
        (set_CS2_req_L2_int ON s, tr)
  else (s, []).

Definition case_8 (line : Z) (s : scanner) : scanner * list LIB.event :=
  if L2_active s then (s, [])
  else if negb (truthy (Z.land (RS232 s line) CTS)) then
    (set_RS232 line (u8 (Z.lor (RS232 s line) RTS)) s, [])
  else if icw_lcd s line =? 0xC then
    let s := if Z.land (icw_scf s line) 0x40 =? 0
             then set_transmitChar (icw_pdf s line) s else s in
    let '(s, tr) := call_LIBtdata line s in
    let s := set_icw_pdf_reg line EMPTY s in
    let s := set_icw_scf line (u8 (Z.lor (icw_scf s line) 0x40)) s in
    let s := set_icw_pcf_nxt line 0x9 s in
    (set_CS2_req_L2_int ON s, tr)
  else if icw_lcd s line =? 0x9 then
    let '(s, tr) := call_LIBtdata line s in
    let s := set_icw_scf line (u8 (Z.land (icw_scf s line) 0xFB)) s in
    (set_icw_pcf_nxt line 0x9 s, tr)
  else (s, []).

(** The transmit step shared by the cases 9 and A: the PDF byte goes to
    the LIB, the NCP is asked for the next one, the PCF stays [stay]. *)
Definition transmit_pdf (line : Z) (stay : Z) (s : scanner)
  : scanner * list LIB.event :=
  let s := set_transmitChar (icw_pdf s line) s in
  let '(s, tr) := call_LIBtdata line s in
  let s := set_icw_pdf_reg line EMPTY s in
  let s := set_icw_scf line (u8 (Z.lor (icw_scf s line) 0x40)) s in
  let s := set_icw_pcf_nxt line stay s in
  (set_CS2_req_L2_int ON s, tr).

Definition case_9 (line : Z) (s : scanner) : scanner * list LIB.event :=
  if L2_active s then (s, [])
  else if icw_lcd s line =? 0xC then
    if Z.land (icw_scf s line) 0x40 =? 0
    then transmit_pdf line 0x9 s else (s, [])
  else if icw_lcd s line =? 0x9 then
    if pdf_state_eqb (icw_pdf_reg s line) FILLED
    then transmit_pdf line 0x9 s else (s, [])
  else (s, []).

Definition case_A (line : Z) (s : scanner) : scanner * list LIB.event :=
  if L2_active s then (s, [])
  else if icw_lcd s line =? 0xC then
    if Z.land (icw_scf s line) 0x40 =? 0
    then transmit_pdf line 0xA s else (s, [])
  else (s, []).

Definition case_C (line : Z) (s : scanner) : scanner * list LIB.event :=
  let '(s, tr) :=
    if icw_lcd s line =? 0xC then
      if negb (icw_pcf_prev s line =? icw_pcf s line) then
        let s := set_transmitChar (icw_pdf s line) s in
        let '(s, tr) := call_LIBtdata line s in
        let s := set_icw_lne_stat line RX s in
        let s := set_icw_scf line (u8 (Z.lor (icw_scf s line) 0x40)) s in
        let s := set_icw_pcf_nxt line 0x5 s in
        (set_CS2_req_L2_int ON s, tr)
      else (s, [])
    else if icw_lcd s line =? 0x9 then
      if negb (icw_pcf_prev s line =? icw_pcf s line) then
        let '(s, tr) := call_LIBtdata line s in
        let s := set_icw_lne_stat line RX s in
        let s := set_icw_scf line (u8 (Z.lor (icw_scf s line) 0x40)) s in
        let s := set_icw_pcf_nxt line 0x5 s in
        (set_CS2_req_L2_int ON s, tr)
      else (s, [])
    else (s, []) in
  let s := set_RS232 line (u8 (Z.land (RS232 s line) (Z.lnot RTS))) s in
  let s := set_RS232 line (u8 (Z.land (RS232 s line) (Z.lnot CTS))) s in
  (s, tr).

Definition case_D (line : Z) (s : scanner) : scanner * list LIB.event :=
  if icw_lcd s line =? 0xC then
    let s := set_icw_pcf_nxt line 0x5 s in
    (set_CS2_req_L2_int ON s, [])
  else (s, []).

Definition case_F (line : Z) (s : scanner) : scanner :=
  let s := set_icw_scf line (u8 (Z.lor (icw_scf s line) 0x40)) s in
  let s := set_icw_sdf line (u8 (Z.land (icw_sdf s line) (Z.lnot 0x08))) s in
  let s := set_RS232 line (u8 (Z.land (RS232 s line) (Z.lnot DTR))) s in
  let s := set_icw_pcf_nxt line 0x0 s in
  set_CS2_req_L2_int ON s.

(** [switch (icw_pcf[line])]. *)
Definition switch_pcf (line : Z) (n : LIB.net) (s : scanner)
  : scanner * list LIB.event :=
  let pcf := icw_pcf s line in
  if pcf =? 0x0 then (s, [])
  else if pcf =? 0x1 then (case_1 line s, [])
  else if pcf =? 0x2 then (case_2 line s, [])
  else if pcf =? 0x3 then (case_3 line s, [])
  else if (pcf =? 0x4) || (pcf =? 0x5) then case_4_5 line n s
  else if pcf =? 0x6 then case_6 line n s
  else if pcf =? 0x7 then case_7 line n s
  else if pcf =? 0x8 then case_8 line s
  else if pcf =? 0x9 then case_9 line s
  else if pcf =? 0xA then case_A line s
  else if pcf =? 0xB then (s, [])
  else if pcf =? 0xC then case_C line s
  else if pcf =? 0xD then case_D line s
  else if pcf =? 0xE then (s, [])
  else if pcf =? 0xF then (case_F line s, [])
  else (s, []).

(** Post-processing: a requested level 2 interrupt is issued.  The scanner
    first sleeps until the CCU has set [svc_req_L2] to OFF. *)
Definition post_process (line : Z) (s : scanner) : scanner :=
  if truthy (CS2_req_L2_int s) then
    let s := set_abar_int (line + 0x020) s in
    let s := set_svc_req_L2 ON s in
    set_CS2_req_L2_int OFF s
  else s.

(** End of the cycle: the current PCF is saved and the next one set. *)
Definition save_pcf (line : Z) (s : scanner) : scanner :=
  let s := set_icw_pcf_prev line (icw_pcf s line) s in
  if negb (icw_pcf s line =? icw_pcf_nxt s line)
  then set_icw_pcf line (icw_pcf_nxt s line) s
  else s.

(** One pass of the scanner loop over one line. *)
Definition scan_line (line : Z) (n : LIB.net) (s : scanner)
  : scanner * list LIB.event :=
  let s := adopt_pcf line s in
  let '(s, tr) := switch_pcf line n s in
  let s := post_process line s in
  (save_pcf line s, tr).

(** [Init_ICW(max)]. *)
Definition Init_ICW (max : Z) (s : scanner) : scanner :=
  let init {A : Type} (a : Z -> A) (v : A) : Z -> A :=
    fun j => if (0 <=? j) && (j <? max) then v else a j in
  {| L := L s;
     icw_scf := init (icw_scf s) 0;
     icw_pdf := init (icw_pdf s) 0;
     icw_lcd := init (icw_lcd s) 0;
     icw_pcf := init (icw_pcf s) 0xE;
     icw_sdf := init (icw_sdf s) 0;
     icw_Rflags := init (icw_Rflags s) 0;
     icw_pcf_prev := init (icw_pcf_prev s) 0x0;
     icw_lne_stat := init (icw_lne_stat s) RESET;
     icw_pcf_nxt := init (icw_pcf_nxt s) 0x0;
     icw_pdf_reg := init (icw_pdf_reg s) EMPTY;
     Eflg_rcvd := Eflg_rcvd s;
     FCS_rcvd0 := FCS_rcvd0 s;
     FCS_rcvd1 := FCS_rcvd1 s;
     receivedChar := receivedChar s;
     transmitChar := transmitChar s;
     CS2_req_L2_int := CS2_req_L2_int s;
     abar_int := abar_int s;
     svc_req_L2 := svc_req_L2 s;
     lvl := lvl s |}.

(** ** Lines as the scanner finds them *)

Definition cold : scanner :=
  {| L := LIB.online_lib;
     icw_scf := fun _ => 0; icw_pdf := fun _ => 0; icw_lcd := fun _ => 0;
     icw_pcf := fun _ => 0; icw_sdf := fun _ => 0; icw_Rflags := fun _ => 0;
     icw_pcf_prev := fun _ => 0; icw_lne_stat := fun _ => RESET;
     icw_pcf_nxt := fun _ => 0; icw_pdf_reg := fun _ => EMPTY;
     Eflg_rcvd := fun _ => 0; FCS_rcvd0 := fun _ => 0; FCS_rcvd1 := fun _ => 0;
     receivedChar := fun _ => 0; transmitChar := 0;
     CS2_req_L2_int := OFF; abar_int := 0; svc_req_L2 := OFF; lvl := 0 |}.

(** What the NCP does between two passes: it writes the next PCF, or a
    byte to transmit. *)
Definition ncp_pcf (line pcf : Z) (s : scanner) : scanner :=
  set_icw_pcf_nxt line pcf (set_svc_req_L2 OFF s).

Definition ncp_pdf (line byte : Z) (s : scanner) : scanner :=
  set_icw_pdf_reg line FILLED
    (set_icw_pdf line byte (set_svc_req_L2 OFF s)).

(** SDLC line 0, clear to send, after the scanner has passed the states 8
    and 9 and taken the three bytes C1 11 00 from the NCP. *)
Definition sending : scanner :=
  let s := Init_ICW 1 cold in
  let s := set_RS232 0 (Z.lor (RS232 s 0) (Z.lor CTS RTS)) s in
  let s := set_icw_lne_stat 0 TX (set_icw_lcd 0 0x9 s) in
  let s := fst (scan_line 0 LIB.idle_net (ncp_pcf 0 0x8 s)) in
  let s := fst (scan_line 0 LIB.idle_net (ncp_pdf 0 0xC1 s)) in
  let s := fst (scan_line 0 LIB.idle_net (ncp_pdf 0 0x11 s)) in
  fst (scan_line 0 LIB.idle_net (ncp_pdf 0 0x00 s)).

(** The NCP ends the transmission with PCF D, or with PCF C. *)
Definition turnaround_D : scanner := ncp_pcf 0 0xD sending.
Definition turnaround_C : scanner := ncp_pcf 0 0xC sending.

(** BSC line 0 in PCF D while a level 2 request is outstanding. *)
Definition bsc_D_pending : scanner :=
  let s := Init_ICW 1 cold in
  let s := set_icw_lcd 0 0xC s in
  let s := set_icw_pcf_prev 0 0xD (set_icw_pcf 0 0xD s) in
  set_svc_req_L2 ON (set_icw_pcf_nxt 0 0xD s).

(** SDLC line 0 in PCF 7 with a frame received while a level 2 request is
    outstanding. *)
Definition sdlc_7_pending : scanner :=
  let s := set_L LIB.received_lib (Init_ICW 1 cold) in
  let s := set_icw_lcd 0 0x9 s in
  let s := set_icw_pcf_prev 0 0x7 (set_icw_pcf 0 0x7 s) in
  set_svc_req_L2 ON (set_icw_pcf_nxt 0 0x7 s).

End CS2.

(** * Properties *)

(** ** Machine integers and byte arrays *)

Lemma u8_small : forall x, 0 <= x < 256 -> u8 x = x.
Proof. intros x H. unfold u8. apply Z.mod_small. exact H. Qed.

Lemma u16_small : forall x, 0 <= x < 65536 -> u16 x = x.
Proof. intros x H. unfold u16. apply Z.mod_small. exact H. Qed.

Lemma int32_small : forall x, -2147483648 <= x < 2147483648 -> int32 x = x.
Proof. intros x H. unfold int32. rewrite Z.mod_small; lia. Qed.

Lemma u8_range : forall x, 0 <= u8 x < 256.
Proof. intros x. unfold u8. apply Z.mod_pos_bound. lia. Qed.

Lemma u8_idem : forall x, u8 (u8 x) = u8 x.
Proof. intros x. apply u8_small, u8_range. Qed.

Lemma rd_range : forall b i, 0 <= rd b i < 256.
Proof. intros. apply u8_range. Qed.

Lemma rd_store_same : forall b i v, rd (store b i v) i = u8 v.
Proof. intros. unfold rd, store. rewrite Z.eqb_refl. apply u8_idem. Qed.

Lemma rd_store_other : forall b i v j, j <> i -> rd (store b i v) j = rd b j.
Proof.
  intros b i v j H. unfold rd, store.
  destruct (Z.eqb_spec j i); [contradiction | reflexivity].
Qed.

Lemma rd_memcpy_in : forall dst d src s n j,
  d <= j < d + n -> rd (memcpy dst d src s n) j = rd src (s + (j - d)).
Proof.
  intros. unfold rd, memcpy.
  destruct (Z.leb_spec d j); destruct (Z.ltb_spec j (d + n)); simpl;
    first [reflexivity | lia].
Qed.

Lemma rd_memcpy_out : forall dst d src s n j,
  j < d \/ d + n <= j -> rd (memcpy dst d src s n) j = rd dst j.
Proof.
  intros. unfold rd, memcpy.
  destruct (Z.leb_spec d j); destruct (Z.ltb_spec j (d + n)); simpl;
    first [reflexivity | lia].
Qed.

Lemma rd_store_eq : forall b i v j, j = i -> rd (store b i v) j = u8 v.
Proof. intros; subst; apply rd_store_same. Qed.

Lemma rd_of_list : forall l i k,
  i = Z.of_nat k -> rd (of_list l) i = u8 (nth k l 0).
Proof.
  intros l i k ->. unfold rd, of_list.
  destruct (Z.ltb_spec (Z.of_nat k) 0); [lia |].
  rewrite Nat2Z.id. reflexivity.
Qed.

(** One read through a store or a copy, the indices compared by [lia]. *)
Ltac rd_step :=
  first [ rewrite rd_store_eq by lia
        | rewrite rd_store_other by lia
        | rewrite rd_memcpy_in by lia
        | rewrite rd_memcpy_out by lia ].


(** ** The DLSw router *)

Section DLSw_facts.
Import DLSw.

Lemma switch_INFOFRAME : forall rbuf g n,
  MSG_type rbuf = INFOFRAME ->
  switch_MSG_type rbuf g n = case_INFOFRAME rbuf g n.
Proof. intros rbuf g n H. unfold switch_MSG_type. rewrite H. reflexivity. Qed.

(** The flow control part touches the pacing variables and the DLSw write
    buffer only. *)
Lemma flow_control_rx_frame : forall rbuf g,
  let g' := fst (fst (flow_control_rx rbuf g)) in
  SDLC_wbuf g' = SDLC_wbuf g /\ SDLCwlen g' = SDLCwlen g /\
  seq_Ns g' = seq_Ns g /\ seq_Nr g' = seq_Nr g /\ state g' = state g /\
  fc_current_window g' = fc_current_window g /\
  flow_control g' = flow_control g /\ conlfd g' = conlfd g.
Proof.
  intros rbuf g. unfold flow_control_rx.
  repeat match goal with
         | |- context [if ?c then _ else _] => destruct c
         end; cbn; repeat split; reflexivity.
Qed.

Ltac hdr_consts :=
  unfold HDR_VER, HDR_HLEN, HDR_MLEN, HDR_RDLC, HDR_RDPID, HDR_MTYP, HDR_FCB,
    HDR_SFLG, HDR_OMAC, HDR_DIR, HDR_ODPID, HDR_ODLC, LEN_CTRL, LEN_INFO in *.

Lemma IFCM_counted : forall w0 d p,
  let w := memcpy w0 0 (of_list INFOFRAME_Hdr) 0 (sizeof INFOFRAME_Hdr) in
  let w := store w HDR_MTYP IFCM in
  let w := store w HDR_FCB (Z.lor FCB_FCI FCO_RPT) in
  let w := memcpy w HDR_RDLC d 0 4 in
  let w := memcpy w HDR_RDPID p 0 4 in
  let w := store w HDR_MLEN 0x00 in
  let w := store w (HDR_MLEN + 1) 0x00 in
  is_IFCM_RPT (send_dlsw (bytes w 0 (Z.to_nat (sizeof INFOFRAME_Hdr)))) = true.
Proof.
  intros. subst w w1 w2 w3 w4 w5 w6.
  change (Z.to_nat (sizeof INFOFRAME_Hdr)) with 16%nat.
  unfold is_IFCM_RPT, bytes.
  cbn [map seq nth Z.of_nat Pos.of_succ_nat Pos.succ].
  hdr_consts. repeat rd_step. reflexivity.
Qed.

Lemma flow_control_rx_pacing : forall rbuf g,
  truthy (flow_control g) = true ->
  let owed1 :=
    if truthy (Z.land (rd rbuf HDR_FCB) FCB_FCA) && truthy (fca_owed g)
    then 0 else fca_owed g in
  let r1 := int32 (rp_granted_units g - 1) in
  let grant := negb (truthy owed1) && (r1 <=? fc_current_window g) in
  let g' := fst (fst (flow_control_rx rbuf g)) in
  let tr := snd (flow_control_rx rbuf g) in
  rp_granted_units g' =
    (if grant then int32 (r1 + fc_current_window g) else r1) /\
  fca_owed g' = (if grant then 1 else owed1) /\
  count_IFCM tr = (if grant then 1 else 0) /\
  (forall e, In e tr -> is_IFCM_RPT e = true).
Proof.
  intros rbuf g Hfc. unfold flow_control_rx.
  cbn [fc_byte set_fc_byte].
  destruct (truthy (Z.land (rd rbuf HDR_FCB) FCB_FCI));
    cbn [flow_control set_fca_due set_fc_byte set_rp_granted_units
         rp_granted_units fca_owed set_fca_owed fc_current_window];
    rewrite Hfc;
    destruct (truthy (Z.land (rd rbuf HDR_FCB) FCB_FCA));
    destruct (truthy (fca_owed g)) eqn:Ho;
    cbn [flow_control set_fca_due set_fc_byte set_rp_granted_units
         rp_granted_units fca_owed set_fca_owed fc_current_window
         andb negb truthy];
    try rewrite Ho; cbn [negb andb];
    try destruct (int32 (rp_granted_units g - 1) <=? fc_current_window g);
    cbn [fst snd rp_granted_units fca_owed set_DLSw_wbuf set_fca_owed
         set_rp_granted_units fc_current_window dlc dlc_pid DLSw_wbuf];
    (repeat split; try reflexivity;
      try (intros e He; destruct He as [<- | []]; apply IFCM_counted);
      try (intros e []);
      try (unfold count_IFCM; cbn [filter]; rewrite IFCM_counted; reflexivity)).
Qed.

(** The INFOFRAME case writes the SDLC buffer, its length and the send
    sequence number, and nothing else. *)
Lemma case_INFOFRAME_frame : forall rbuf g n,
  let r := case_INFOFRAME rbuf g n in
  snd (fst r) = n /\ snd r = [] /\
  DLSw_wbuf (fst (fst r)) = DLSw_wbuf g /\
  rp_granted_units (fst (fst r)) = rp_granted_units g /\
  fca_owed (fst (fst r)) = fca_owed g /\
  fc_current_window (fst (fst r)) = fc_current_window g /\
  flow_control (fst (fst r)) = flow_control g /\
  state (fst (fst r)) = state g /\
  seq_Ns (fst (fst r))
    = (if u8 (seq_Ns g + 1) =? 8 then 0 else u8 (seq_Ns g + 1)).
Proof.
  intros rbuf g n. unfold case_INFOFRAME. cbv zeta.
  repeat split; reflexivity.
Qed.

(** The cases of the switch other than a capabilities request leave the
    pacing variables alone and send no message themselves. *)
Lemma switch_pacing_frame : forall rbuf g n,
  is_CAP_request rbuf = false ->
  let g' := fst (fst (switch_MSG_type rbuf g n)) in
  let tr := snd (switch_MSG_type rbuf g n) in
  rp_granted_units g' = rp_granted_units g /\
  fca_owed g' = fca_owed g /\
  fc_current_window g' = fc_current_window g /\
  (truthy (flow_control g) = true -> truthy (flow_control g') = true) /\
  (forall e, In e tr -> is_rs232 e = true).
Proof.
  intros rbuf g n Hcap. unfold is_CAP_request in Hcap.
  unfold switch_MSG_type.
  repeat match goal with
         | |- context [MSG_type rbuf =? ?c] =>
             destruct (MSG_type rbuf =? c) eqn:?
         end.
  all: try (cbn; repeat split; try tauto; intros e []; fail).
  all: unfold case_CANUREACH, case_XIDFRAME, case_CONTACTED, case_INFOFRAME,
         case_HALT_DL, case_CAP_EXCHANGE.
  all: try match goal with
           | H : (MSG_type _ =? CAP_EXCHANGE) = true, Hc : _ && _ = false |- _ =>
               rewrite H in Hc; cbn [andb] in Hc; rewrite Hc
           end.
  all: repeat match goal with
              | |- context [if ?c then _ else _] => destruct c
              end.
  all: try match goal with
           | H : true && true = false |- _ => discriminate H
           end.
  all: cbn [fst snd rp_granted_units fca_owed fc_current_window flow_control
            set_state set_DLSw_wbuf set_PUtype set_IDBLK set_IDNUM set_dlc
            set_dlc_pid set_IFRAMlen set_SDLC_wbuf set_SDLCwlen set_seq_Ns].
  all: repeat split; try tauto.
  all: intros e He; first [ destruct He as [<- | []]; reflexivity | destruct He ].
Qed.

Lemma proc_DLSw_pacing : forall rbuf g,
  truthy (flow_control g) = true ->
  is_CAP_request rbuf = false ->
  let owed1 :=
    if truthy (Z.land (rd rbuf HDR_FCB) FCB_FCA) && truthy (fca_owed g)
    then 0 else fca_owed g in
  let r1 := int32 (rp_granted_units g - 1) in
  let grant := negb (truthy owed1) && (r1 <=? fc_current_window g) in
  let g' := fst (fst (proc_DLSw rbuf g)) in
  let tr := snd (proc_DLSw rbuf g) in
  rp_granted_units g' =
    (if grant then int32 (r1 + fc_current_window g) else r1) /\
  fca_owed g' = (if grant then 1 else owed1) /\
  count_IFCM tr = (if grant then 1 else 0) /\
  fc_current_window g' = fc_current_window g /\
  truthy (flow_control g') = true.
Proof.
  intros rbuf g Hfc Hcap.
  pose proof (flow_control_rx_pacing rbuf g Hfc) as Hp.
  pose proof (flow_control_rx_frame rbuf g) as Hf.
  unfold proc_DLSw.
  destruct (flow_control_rx rbuf g) as [[g1 n1] tr1].
  cbn [fst snd] in Hp, Hf.
  pose proof (switch_pacing_frame rbuf g1 n1 Hcap) as Hs.
  destruct (switch_MSG_type rbuf g1 n1) as [[g2 n2] tr2].
  cbn [fst snd] in Hs |- *.
  destruct Hp as (Hrp & Hfo & Hcnt & _).
  destruct Hf as (_ & _ & _ & _ & _ & Hcw & Hfl & _).
  destruct Hs as (Hrp2 & Hfo2 & Hcw2 & Hfl2 & Hev).
  rewrite Hrp2, Hfo2, Hcw2, Hrp, Hfo, Hcw.
  repeat split; try reflexivity.
  - rewrite <- Hcnt. unfold count_IFCM. rewrite filter_app, length_app.
    replace (filter is_IFCM_RPT tr2) with (@nil event); [cbn; lia |].
    symmetry. clear - Hev. induction tr2 as [| e tr2 IH]; [reflexivity |].
    cbn [filter].
    assert (is_rs232 e = true) as He by (apply Hev; left; reflexivity).
    destruct e; try discriminate. cbn. apply IH.
    intros e' H'. apply Hev. right. exact H'.
  - apply Hfl2. rewrite Hfl. exact Hfc.
Qed.

Lemma proc_DLSw_seq_cons : forall m ms g,
  fst (proc_DLSw_seq (m :: ms) g)
    = fst (proc_DLSw_seq ms (fst (fst (proc_DLSw m g)))) /\
  snd (proc_DLSw_seq (m :: ms) g)
    = snd (proc_DLSw m g)
      :: snd (proc_DLSw_seq ms (fst (fst (proc_DLSw m g)))).
Proof.
  intros m ms g. cbn [proc_DLSw_seq].
  destruct (proc_DLSw m g) as [[g1 n1] tr1]. cbn [fst snd].
  destruct (proc_DLSw_seq ms g1) as [g2 trs]. split; reflexivity.
Qed.

Lemma count_IFCM_app : forall tr1 tr2,
  count_IFCM (tr1 ++ tr2) = count_IFCM tr1 + count_IFCM tr2.
Proof.
  intros. unfold count_IFCM. rewrite filter_app, length_app. lia.
Qed.

(** The counter follows the messages received and the grants sent as long
    as it stays in the range of an [int]; [n0] messages came before. *)
Lemma rp_granted_units_run : forall msgs g w n0,
  truthy (flow_control g) = true ->
  fc_current_window g = w -> 0 <= w < 65536 ->
  0 <= n0 -> w - n0 <= rp_granted_units g <= 2 * w ->
  Forall (fun m => is_CAP_request m = false) msgs ->
  n0 + Z.of_nat (length msgs) <= 2147483648 ->
  rp_granted_units (fst (proc_DLSw_seq msgs g))
    = rp_granted_units g
      + count_IFCM (concat (snd (proc_DLSw_seq msgs g))) * w
      - Z.of_nat (length msgs).
Proof.
  induction msgs as [| m ms IH]; intros g w n0 Hfc Hcw Hw Hn0 Hrp Hall Hlen.
  - cbn. lia.
  - destruct (proc_DLSw_seq_cons m ms g) as [-> ->].
    inversion Hall as [| ? ? Hm Hms]; subst.
    destruct (proc_DLSw_pacing m g Hfc Hm) as (Hrp1 & _ & Hcnt & Hcw1 & Hfc1).
    cbn [length] in Hlen. rewrite Nat2Z.inj_succ in Hlen.
    rewrite (int32_small (rp_granted_units g - 1)) in Hrp1, Hcnt by lia.
    set (g1 := fst (fst (proc_DLSw m g))) in *.
    set (tr1 := snd (proc_DLSw m g)) in *.
    cbn [concat length]. rewrite count_IFCM_app, Nat2Z.inj_succ.
    match type of Hcnt with
    | _ = if ?c then _ else _ => destruct c eqn:Hgrant
    end.
    + apply andb_prop in Hgrant. destruct Hgrant as [_ Hle].
      apply Z.leb_le in Hle.
      rewrite int32_small in Hrp1 by lia.
      rewrite (IH g1 (fc_current_window g) (n0 + 1)); try assumption; try lia.
    + rewrite (IH g1 (fc_current_window g) (n0 + 1)); try assumption; try lia.
Qed.

Lemma int32_add_l : forall a b, int32 (int32 a + b) = int32 (a + b).
Proof.
  intros a b. unfold int32. f_equal.
  replace ((a + 2147483648) mod 4294967296 - 2147483648 + b + 2147483648)
    with ((a + 2147483648) mod 4294967296 + b) by lia.
  rewrite Zplus_mod_idemp_l. f_equal. lia.
Qed.

(** In the arithmetic of [int] the counter follows the messages and the
    grants whatever their number. *)
Lemma rp_granted_units_run_int32 : forall msgs g w,
  truthy (flow_control g) = true ->
  fc_current_window g = w ->
  Forall (fun m => is_CAP_request m = false) msgs ->
  int32 (rp_granted_units (fst (proc_DLSw_seq msgs g)))
    = int32 (rp_granted_units g
             + count_IFCM (concat (snd (proc_DLSw_seq msgs g))) * w
             - Z.of_nat (length msgs)).
Proof.
  induction msgs as [| m ms IH]; intros g w Hfc Hcw Hall.
  - cbn. f_equal. lia.
  - destruct (proc_DLSw_seq_cons m ms g) as [-> ->].
    inversion Hall as [| ? ? Hm Hms]; subst.
    destruct (proc_DLSw_pacing m g Hfc Hm) as (Hrp1 & _ & Hcnt & Hcw1 & Hfc1).
    set (g1 := fst (fst (proc_DLSw m g))) in *.
    set (tr1 := snd (proc_DLSw m g)) in *.
    rewrite (IH g1 (fc_current_window g) Hfc1 Hcw1 Hms).
    cbn [concat length]. rewrite count_IFCM_app, Nat2Z.inj_succ.
    rewrite Hrp1, Hcnt.
    match goal with
    | |- context [if ?c then _ else _] => destruct c
    end.
    + rewrite <- Z.add_sub_assoc, int32_add_l.
      rewrite <- Z.add_assoc, int32_add_l. f_equal. lia.
    + rewrite <- Z.add_sub_assoc, int32_add_l. f_equal. lia.
Qed.

Lemma int32_idem : forall x, int32 (int32 x) = int32 x.
Proof.
  intros x. unfold int32.
  replace ((x + 2147483648) mod 4294967296 - 2147483648 + 2147483648)
    with ((x + 2147483648) mod 4294967296) by lia.
  rewrite Z.mod_mod by lia. reflexivity.
Qed.

Lemma rp_granted_units_is_int : forall msgs g,
  truthy (flow_control g) = true ->
  Forall (fun m => is_CAP_request m = false) msgs ->
  int32 (rp_granted_units g) = rp_granted_units g ->
  int32 (rp_granted_units (fst (proc_DLSw_seq msgs g)))
    = rp_granted_units (fst (proc_DLSw_seq msgs g)).
Proof.
  induction msgs as [| m ms IH]; intros g Hfc Hall Hint.
  - exact Hint.
  - destruct (proc_DLSw_seq_cons m ms g) as [-> _].
    inversion Hall as [| ? ? Hm Hms]; subst.
    destruct (proc_DLSw_pacing m g Hfc Hm) as (Hrp1 & _ & _ & _ & Hfc1).
    apply IH; try assumption.
    rewrite Hrp1.
    match goal with
    | |- context [if ?c then _ else _] => destruct c
    end; apply int32_idem.
Qed.

(** C1 (as the code has it).  Flow control is on, fc_current_window and
    rp_granted_units both hold the adopted window w, a 16-bit value.  After
    N messages processed by [proc_DLSw], none of them a CAP_EXCHANGE with
    GDS id 0x1520 (which sets the counters anew), rp_granted_units is
    w + k * w - N, with k the number of IFCM messages with the repeat
    operator that [proc_DLSw] has sent: a message received takes one unit,
    an IFCM sent adds fc_current_window.  The equation holds in the
    arithmetic of [int] for every N, and as an equation of integers for N
    up to 2^31. *)
Theorem C1_rp_granted_units_invariant : forall msgs g w,
  truthy (flow_control g) = true ->
  fc_current_window g = w -> rp_granted_units g = w ->
  0 <= w < 65536 ->
  Forall (fun m => is_CAP_request m = false) msgs ->
  let g' := fst (proc_DLSw_seq msgs g) in
  let k := count_IFCM (concat (snd (proc_DLSw_seq msgs g))) in
  let N := Z.of_nat (length msgs) in
  rp_granted_units g' = int32 (w + k * w - N) /\
  (N <= 2147483648 -> rp_granted_units g' = w + k * w - N).
Proof.
  intros msgs g w Hfc Hcw Hrp Hw Hall. cbv zeta. split.
  - rewrite <- (rp_granted_units_is_int msgs g Hfc Hall)
      by (rewrite Hrp; apply int32_small; lia).
    rewrite (rp_granted_units_run_int32 msgs g w Hfc Hcw Hall), Hrp.
    reflexivity.
  - intros Hlen.
    rewrite (rp_granted_units_run msgs g w 0); try assumption; lia.
Qed.

Lemma C1_witness :
  rp_granted_units (fst (proc_DLSw_seq five_frames (paced 20)))
    = 20 + count_IFCM (concat (snd (proc_DLSw_seq five_frames (paced 20)))) * 20
      - Z.of_nat (length five_frames).
Proof.
  apply (C1_rp_granted_units_invariant five_frames (paced 20) 20).
  - reflexivity.
  - reflexivity.
  - reflexivity.
  - lia.
  - repeat constructor.
  - cbn. lia.
Defined.

(** On an INFOFRAME the switch builds no reply: the length returned is the
    one left by the flow control part, and [main] sends the bytes of the
    write buffer, which still hold the IFCM that [proc_DLSw] has sent. *)
Lemma main_recv_INFOFRAME_events : forall rbuf g,
  MSG_type rbuf = INFOFRAME ->
  snd (main_recv rbuf g)
    = snd (flow_control_rx rbuf g) ++ snd (flow_control_rx rbuf g).
Proof.
  intros rbuf g Htyp. unfold main_recv, proc_DLSw.
  assert (H : snd (flow_control_rx rbuf g) = [] /\
              snd (fst (flow_control_rx rbuf g)) = 0 \/
              snd (flow_control_rx rbuf g)
                = [send_dlsw
                     (bytes (DLSw_wbuf (fst (fst (flow_control_rx rbuf g)))) 0
                        16)] /\
              snd (fst (flow_control_rx rbuf g)) = 16).
  { unfold flow_control_rx.
    repeat match goal with
           | |- context [if ?c then _ else _] => destruct c
           end;
      first [ left; split; reflexivity | right; split; reflexivity ]. }
  destruct (flow_control_rx rbuf g) as [[g1 n1] tr1]. cbn [fst snd] in *.
  rewrite (switch_INFOFRAME rbuf g1 n1 Htyp).
  destruct (case_INFOFRAME_frame rbuf g1 n1) as (Hn & Htr & Hw & _).
  destruct (case_INFOFRAME rbuf g1 n1) as [[g2 n2] tr2].
  cbn [fst snd] in *. subst n2 tr2. rewrite Hw.
  destruct H as [[-> ->] | [-> ->]]; reflexivity.
Qed.

(** A second capabilities request, received after the circuit is paced
    with window 20: one message, one IFCM sent, and rp_granted_units is 20,
    not 20 + 1 * 20 - 1. *)
Lemma C1_counterexample :
  truthy (flow_control (paced 20)) = true /\
  fc_init_window_size (paced 20) = 20 /\
  fc_current_window (paced 20) = 20 /\
  rp_granted_units (paced 20) = 20 /\
  rp_granted_units (fst (proc_DLSw_seq [cap_request 20] (paced 20)))
    <> 20
       + count_IFCM (concat (snd (proc_DLSw_seq [cap_request 20] (paced 20))))
         * 20
       - Z.of_nat (length [cap_request 20]).
Proof.
  repeat split; try reflexivity.
  vm_compute. discriminate.
Qed.

(** C2 (as the code has it).  Flow control is on, fc_current_window and
    rp_granted_units are 4 and no acknowledge is owed.  The peer sends five
    messages, none a capabilities request and none with the FCA bit.
    [proc_DLSw] sends exactly one IFCM with the repeat operator, while it
    processes the first message: rp_granted_units drops to 3, which is not
    above the window, and is raised to 7.  The acknowledge then owed holds
    back any further IFCM: none is sent on the messages 2 to 5, and
    rp_granted_units ends at 3. *)
Theorem C2_single_grant_on_first_frame : forall m1 m2 m3 m4 m5 g,
  truthy (flow_control g) = true ->
  fc_current_window g = 4 -> rp_granted_units g = 4 -> fca_owed g = 0 ->
  Forall (fun m => is_CAP_request m = false /\
                   Z.land (rd m HDR_FCB) FCB_FCA = 0)
         [m1; m2; m3; m4; m5] ->
  let run := proc_DLSw_seq [m1; m2; m3; m4; m5] g in
  map count_IFCM (snd run) = [1; 0; 0; 0; 0] /\
  rp_granted_units (fst run) = 3.
Proof.
  intros m1 m2 m3 m4 m5 g Hfc Hcw Hrp Ho Hall. cbv zeta.
  assert (Hstep : forall m g r o,
            truthy (flow_control g) = true -> fc_current_window g = 4 ->
            rp_granted_units g = r -> fca_owed g = o ->
            is_CAP_request m = false /\ Z.land (rd m HDR_FCB) FCB_FCA = 0 ->
            let grant := negb (truthy o) && (int32 (r - 1) <=? 4) in
            let g' := fst (fst (proc_DLSw m g)) in
            truthy (flow_control g') = true /\ fc_current_window g' = 4 /\
            rp_granted_units g'
              = (if grant then int32 (int32 (r - 1) + 4) else int32 (r - 1)) /\
            fca_owed g' = (if grant then 1 else o) /\
            count_IFCM (snd (proc_DLSw m g)) = (if grant then 1 else 0)).
  { clear. intros m g r o Hfc Hcw Hrp Ho [Hcap Hfca].
    destruct (proc_DLSw_pacing m g Hfc Hcap) as (H1 & H2 & H3 & H4 & H5).
    rewrite Hfca, Hcw, Hrp, Ho in *. cbn [truthy Z.eqb negb andb] in *.
    cbv zeta. repeat split; assumption. }
  repeat match goal with
         | H : Forall _ (_ :: _) |- _ => inversion H; clear H; subst
         end.
  destruct (proc_DLSw_seq_cons m1 [m2; m3; m4; m5] g) as [-> ->].
  destruct (Hstep m1 g 4 0 Hfc Hcw Hrp Ho ltac:(assumption))
    as (Hfc1 & Hcw1 & Hrp1 & Ho1 & Hc1).
  set (g1 := fst (fst (proc_DLSw m1 g))) in *.
  destruct (proc_DLSw_seq_cons m2 [m3; m4; m5] g1) as [-> ->].
  destruct (Hstep m2 g1 _ _ Hfc1 Hcw1 Hrp1 Ho1 ltac:(assumption))
    as (Hfc2 & Hcw2 & Hrp2 & Ho2 & Hc2).
  set (g2 := fst (fst (proc_DLSw m2 g1))) in *.
  destruct (proc_DLSw_seq_cons m3 [m4; m5] g2) as [-> ->].
  destruct (Hstep m3 g2 _ _ Hfc2 Hcw2 Hrp2 Ho2 ltac:(assumption))
    as (Hfc3 & Hcw3 & Hrp3 & Ho3 & Hc3).
  set (g3 := fst (fst (proc_DLSw m3 g2))) in *.
  destruct (proc_DLSw_seq_cons m4 [m5] g3) as [-> ->].
  destruct (Hstep m4 g3 _ _ Hfc3 Hcw3 Hrp3 Ho3 ltac:(assumption))
    as (Hfc4 & Hcw4 & Hrp4 & Ho4 & Hc4).
  set (g4 := fst (fst (proc_DLSw m4 g3))) in *.
  destruct (proc_DLSw_seq_cons m5 [] g4) as [-> ->].
  destruct (Hstep m5 g4 _ _ Hfc4 Hcw4 Hrp4 Ho4 ltac:(assumption))
    as (Hfc5 & Hcw5 & Hrp5 & Ho5 & Hc5).
  cbn [map proc_DLSw_seq fst snd].
  rewrite Hc1, Hc2, Hc3, Hc4, Hc5, Hrp5.
  split; reflexivity.
Qed.

Lemma C2_witness :
  map count_IFCM (snd (proc_DLSw_seq five_frames (paced 4))) = [1; 0; 0; 0; 0] /\
  rp_granted_units (fst (proc_DLSw_seq five_frames (paced 4))) = 3.
Proof.
  apply (C2_single_grant_on_first_frame
           sample_infoframe sample_infoframe sample_infoframe
           sample_infoframe sample_infoframe (paced 4));
    try reflexivity.
  repeat constructor.
Defined.

(** Five INFOFRAMEs on a circuit paced with window 4: the IFCM counts per
    message are 1 0 0 0 0, not 0 0 0 1 0. *)
Lemma C2_counterexample :
  truthy (flow_control (paced 4)) = true /\
  fc_current_window (paced 4) = 4 /\
  rp_granted_units (paced 4) = 4 /\
  map count_IFCM (snd (proc_DLSw_seq five_frames (paced 4)))
    <> [0; 0; 0; 1; 0].
Proof.
  repeat split; try reflexivity. vm_compute. discriminate.
Qed.

Lemma cons_eq : forall (A : Type) (a b : A) (l l' : list A),
  a = b -> l = l' -> a :: l = b :: l'.
Proof. intros; subst; reflexivity. Qed.

(** An INFOFRAME of ten bytes, stored behind what [SDLC_wbuf] holds. *)
Lemma case_INFOFRAME_10 : forall rbuf g n,
  MSG_len rbuf = 10 -> seq_Ns g = 0 -> seq_Nr g = 0 ->
  0 <= SDLCwlen g <= 65535 - 18 ->
  let g' := fst (fst (case_INFOFRAME rbuf g n)) in
  bytes (SDLC_wbuf g') (SDLCwlen g) 2 = [0x00; 0x10] /\
  bytes (SDLC_wbuf g') (SDLCwlen g + 2) 16
    = [0x7E; 0xC1; 0x10] ++ bytes rbuf (HDR_len rbuf) 10 ++ [0x47; 0x0F; 0x7E] /\
  seq_Ns g' = 1 /\ SDLCwlen g' = SDLCwlen g + 18 /\ state g' = state g.
Proof.
  intros rbuf g n Hlen Hns Hnr Hw.
  unfold case_INFOFRAME. rewrite Hlen, Hns, Hnr. cbv zeta.
  cbn [fst snd SDLC_wbuf SDLCwlen seq_Ns seq_Nr state
       set_IFRAMlen set_SDLC_wbuf set_SDLCwlen set_seq_Ns].
  change (u8 (0 + 1) =? 8) with false. cbv iota.
  rewrite !(u16_small (SDLCwlen g + 1)) by lia.
  rewrite !(u16_small (SDLCwlen g + 1 + 1)) by lia.
  rewrite !(u16_small (SDLCwlen g + 1 + 1 + 10 + 6)) by lia.
  change (u16 (10 + 6)) with 16. change (Z.shiftr 16 8) with 0.
  change (Z.land 16 255) with 16.
  change (Z.shiftl 0 5) with 0. change (Z.shiftl 0 1) with 0.
  unfold BFlag, FAddr, FCntl, CFinal.
  unfold bytes. cbn [map seq app Z.of_nat Pos.of_succ_nat Pos.succ].
  repeat rd_step.
  rewrite !(rd_of_list _ _ 0%nat), !(rd_of_list _ _ 1%nat),
          !(rd_of_list _ _ 2%nat) by lia.
  repeat split; try reflexivity; try lia.
  repeat (apply cons_eq; [first [reflexivity | f_equal; lia] |]). reflexivity.
Qed.

(** C3.  An INFOFRAME of message length 10, received while the circuit is
    CONNECTED and both sequence numbers are 0, is stored in the SDLC write
    buffer as the frame 7E C1 ctrl, the ten bytes of the message body,
    47 0F 7E, behind a two-byte length prefix; the control byte carries
    Ns = 0 in the bits 1 to 3 and Nr = 0 in the three high bits; afterwards
    seq_Ns is 1.  The frame must fit in the 16-bit length of the buffer. *)
Theorem C3_infoframe_becomes_sdlc_frame : forall rbuf g,
  MSG_type rbuf = INFOFRAME -> MSG_len rbuf = 10 ->
  state g = CONNECTED -> seq_Ns g = 0 -> seq_Nr g = 0 ->
  0 <= SDLCwlen g <= 65535 - 18 ->
  let g' := fst (fst (proc_DLSw rbuf g)) in
  let frame := bytes (SDLC_wbuf g') (SDLCwlen g + 2) 16 in
  let ctrl := nth 2 frame 0 in
  frame = [0x7E; 0xC1; ctrl] ++ bytes rbuf (HDR_len rbuf) 10
            ++ [0x47; 0x0F; 0x7E] /\
  Z.land (Z.shiftr ctrl 1) 0x07 = 0 /\
  Z.shiftr ctrl 5 = 0 /\
  bytes (SDLC_wbuf g') (SDLCwlen g) 2 = [0x00; 0x10] /\
  SDLCwlen g' = SDLCwlen g + 18 /\
  seq_Ns g' = 1 /\
  state g' = CONNECTED.
Proof.
  intros rbuf g Htyp Hlen Hst Hns Hnr Hw.
  pose proof (flow_control_rx_frame rbuf g) as Hf.
  unfold proc_DLSw.
  destruct (flow_control_rx rbuf g) as [[g1 n1] tr1].
  cbn [fst snd] in Hf.
  destruct Hf as (Hbuf & Hwlen & Hns1 & Hnr1 & Hst1 & _).
  rewrite (switch_INFOFRAME rbuf g1 n1 Htyp).
  rewrite <- Hns1 in Hns. rewrite <- Hnr1 in Hnr. rewrite <- Hwlen in Hw.
  pose proof (case_INFOFRAME_10 rbuf g1 n1 Hlen Hns Hnr Hw) as Hc.
  destruct (case_INFOFRAME rbuf g1 n1) as [[g2 n2] tr2].
  cbn [fst snd] in Hc |- *. rewrite Hwlen in Hc.
  destruct Hc as (Hpre & Hfr & Hns2 & Hw2 & Hst2).
  rewrite Hfr. cbn [app nth].
  repeat split; try assumption; try reflexivity. congruence.
Qed.

Lemma C3_witness :
  bytes (SDLC_wbuf (fst (fst (proc_DLSw sample_infoframe connected)))) 2 16
    = [0x7E; 0xC1; 0x10] ++ sample_payload ++ [0x47; 0x0F; 0x7E] /\
  seq_Ns (fst (fst (proc_DLSw sample_infoframe connected))) = 1.
Proof.
  destruct (C3_infoframe_becomes_sdlc_frame sample_infoframe connected)
    as (Hfr & _ & _ & _ & _ & Hns & _);
    [reflexivity | reflexivity | reflexivity | reflexivity | reflexivity
    | cbn; lia | ].
  split; [exact Hfr | exact Hns].
Defined.

(** What a message does to the send sequence number. *)
Lemma proc_DLSw_seq_Ns : forall rbuf g,
  seq_Ns (fst (fst (proc_DLSw rbuf g)))
    = if is_INFOFRAME rbuf
      then (if u8 (seq_Ns g + 1) =? 8 then 0 else u8 (seq_Ns g + 1))
      else seq_Ns g.
Proof.
  intros rbuf g.
  pose proof (flow_control_rx_frame rbuf g) as Hf.
  unfold proc_DLSw.
  destruct (flow_control_rx rbuf g) as [[g1 n1] tr1].
  cbn [fst snd] in Hf. destruct Hf as (_ & _ & Hns & _).
  rewrite <- Hns. clear.
  unfold is_INFOFRAME, switch_MSG_type.
  repeat match goal with
         | |- context [MSG_type rbuf =? ?c] =>
             destruct (Z.eqb_spec (MSG_type rbuf) c) as [-> |]
         end;
    try reflexivity; try discriminate.
  all: unfold case_CANUREACH, case_XIDFRAME, case_CONTACTED, case_INFOFRAME,
         case_HALT_DL, case_CAP_EXCHANGE.
  all: repeat match goal with
              | |- context [if ?c then _ else _] => destruct c eqn:?
              end.
  all: cbn [fst snd seq_Ns
            set_state set_DLSw_wbuf set_PUtype set_IDBLK set_IDNUM set_dlc
            set_dlc_pid set_IFRAMlen set_SDLC_wbuf set_SDLCwlen set_seq_Ns
            set_fc_init_window_size set_fc_current_window
            set_rp_granted_units set_lp_granted_units set_fca_owed] in *.
  all: try reflexivity; try congruence.
  all: match goal with
       | H : (?a =? ?b) = true |- _ =>
           let v := eval vm_compute in (a =? b) in
           match v with
           | false => change (a =? b) with false in H; discriminate H
           end
       end.
Qed.

Lemma next_Ns_mod_8 : forall (i : bool) ns,
  0 <= ns < 8 ->
  (if i then (if u8 (ns + 1) =? 8 then 0 else u8 (ns + 1)) else ns)
    = (ns + (if i then 1 else 0)) mod 8.
Proof.
  intros i ns H.
  destruct i.
  - rewrite u8_small by lia.
    destruct (Z.eqb_spec (ns + 1) 8) as [E | E].
    + rewrite E. reflexivity.
    + rewrite Z.mod_small; lia.
  - rewrite Z.add_0_r, Z.mod_small; lia.
Qed.

Lemma seq_Ns_run : forall msgs g,
  0 <= seq_Ns g < 8 ->
  seq_Ns (fst (proc_DLSw_seq msgs g))
    = (seq_Ns g + Z.of_nat (length (filter is_INFOFRAME msgs))) mod 8.
Proof.
  induction msgs as [| m ms IH]; intros g Hg.
  - cbn. rewrite Z.add_0_r, Z.mod_small; lia.
  - destruct (proc_DLSw_seq_cons m ms g) as [-> _].
    pose proof (proc_DLSw_seq_Ns m g) as Hs.
    rewrite (next_Ns_mod_8 (is_INFOFRAME m) (seq_Ns g) Hg) in Hs.
    rewrite IH.
    + rewrite Hs. cbn [filter].
      destruct (is_INFOFRAME m); cbn [length].
      * rewrite Nat2Z.inj_succ, Zplus_mod_idemp_l. f_equal. lia.
      * rewrite Zplus_mod_idemp_l. f_equal. lia.
    + rewrite Hs. apply Z.mod_pos_bound. lia.
Qed.

(** C4.  The send sequence number is 0 when [main] starts its loop and
    after an SNRM frame; from 0, once [proc_DLSw] has processed messages of
    which m are INFOFRAMEs, it equals m mod 8; from 7, an INFOFRAME takes it
    to 0. *)
Theorem C4_seq_Ns_counts_mod_8 :
  seq_Ns main_init = 0 /\
  (forall SDLC_rbuf Fptr g,
     Z.land (rd SDLC_rbuf (Fptr + FCntl)) 0xEF = SNRM ->
     seq_Ns (fst (main_SNRM SDLC_rbuf Fptr g)) = 0) /\
  (forall msgs g,
     seq_Ns g = 0 ->
     seq_Ns (fst (proc_DLSw_seq msgs g))
       = Z.of_nat (length (filter is_INFOFRAME msgs)) mod 8) /\
  (forall rbuf g,
     seq_Ns g = 7 -> MSG_type rbuf = INFOFRAME ->
     seq_Ns (fst (fst (proc_DLSw rbuf g))) = 0).
Proof.
  split; [reflexivity |]. split; [| split].
  - intros b Fptr g H. unfold main_SNRM. rewrite H. cbn [Z.eqb Pos.eqb].
    destruct (truthy _); reflexivity.
  - intros msgs g H. rewrite seq_Ns_run by lia. rewrite H. reflexivity.
  - intros rbuf g H Ht. rewrite proc_DLSw_seq_Ns. unfold is_INFOFRAME.
    rewrite Ht, H. reflexivity.
Qed.

Lemma C4_witness :
  seq_Ns (fst (proc_DLSw_seq (five_frames ++ five_frames) main_init))
    = 10 mod 8 /\
  seq_Ns (fst (main_SNRM (of_list [0x7E; 0xC1; 0x93; 0x47; 0x0F; 0x7E]) 0
                 (fst (proc_DLSw_seq five_frames main_init)))) = 0.
Proof.
  destruct C4_seq_Ns_counts_mod_8 as (H0 & Hsnrm & Hrun & _).
  split.
  - exact (Hrun (five_frames ++ five_frames) main_init H0).
  - apply Hsnrm. reflexivity.
Defined.

Lemma switch_CAP_EXCHANGE : forall rbuf g n,
  MSG_type rbuf = CAP_EXCHANGE ->
  switch_MSG_type rbuf g n = case_CAP_EXCHANGE rbuf g n.
Proof. intros rbuf g n H. unfold switch_MSG_type. rewrite H. reflexivity. Qed.

Lemma window_range : forall hi lo,
  0 <= hi < 256 -> 0 <= lo < 256 -> 0 <= Z.shiftl hi 8 + lo < 65536.
Proof. intros hi lo Hh Hl. rewrite Z.shiftl_mul_pow2 by lia. lia. Qed.

(** C5.  A CAP_EXCHANGE message with GDS id 0x1520 makes [proc_DLSw] adopt
    the initial pacing window of the peer (the two bytes at offset
    CAP_IPW_OFF + 2 of the body) as fc_init_window_size, fc_current_window,
    rp_granted_units and lp_granted_units, and clear fca_owed; the reply is
    the 72-byte control header with message length 4, type CAP_EXCHANGE and
    direction target (0x01), followed by 00 04 15 21; the circuit state is
    unchanged. *)
Theorem C5_cap_exchange_request : forall rbuf g,
  MSG_type rbuf = CAP_EXCHANGE ->
  GDS_id rbuf = 0x1520 ->
  let w := Z.shiftl (rd rbuf (HDR_len rbuf + CAP_IPW_OFF + 2)) 8
           + rd rbuf (HDR_len rbuf + CAP_IPW_OFF + 3) in
  let g' := fst (fst (proc_DLSw rbuf g)) in
  let DLSwwlen := snd (fst (proc_DLSw rbuf g)) in
  let reply := bytes (DLSw_wbuf g') 0 (Z.to_nat DLSwwlen) in
  fc_init_window_size g' = w /\
  fc_current_window g' = w /\
  rp_granted_units g' = w /\
  lp_granted_units g' = w /\
  fca_owed g' = 0 /\
  DLSwwlen = LEN_CTRL + 4 /\
  reply =
       [ DLSW_VER; 0x48; 0x00; 0x04; 0x00; 0x00; 0x00; 0x00 ]
    ++ [ 0x00; 0x00; 0x00; 0x00; 0x00; 0x00; CAP_EXCHANGE; 0x00 ]
    ++ [ 0x42; 0x01; 0x00; 0x00; 0x00; 0x00; 0x00; 0x00 ]
    ++ [ 0x00; 0x00; 0x00; 0x00; 0x00; 0x00; 0x00; 0x00 ]
    ++ [ 0x00; 0x00; 0x00; 0x00; 0x00; 0x00; DIR_TGT; 0x00 ]
    ++ [ 0x00; 0x00; 0x00; 0x00; 0x00; 0x00; 0x00; 0x00 ]
    ++ [ 0x00; 0x00; 0x00; 0x00; 0x00; 0x00; 0x00; 0x00 ]
    ++ [ 0x00; 0x00; 0x00; 0x00; 0x00; 0x00; 0x00; 0x00 ]
    ++ [ 0x00; 0x00; 0x00; 0x00; 0x00; 0x00; 0x00; 0x00 ]
    ++ [ 0x00; 0x04; 0x15; 0x21 ] /\
  state g' = state g.
Proof.
  intros rbuf g Htyp Hgds.
  pose proof (flow_control_rx_frame rbuf g) as Hf.
  unfold proc_DLSw.
  destruct (flow_control_rx rbuf g) as [[g1 n1] tr1].
  cbn [fst snd] in Hf. destruct Hf as (_ & _ & _ & _ & Hst & _).
  rewrite (switch_CAP_EXCHANGE rbuf g1 n1 Htyp).
  unfold case_CAP_EXCHANGE. rewrite Hgds. cbn [Z.eqb Pos.eqb]. cbv zeta.
  cbn [fst snd fc_init_window_size fc_current_window rp_granted_units
       lp_granted_units fca_owed state DLSw_wbuf
       set_fc_init_window_size set_fc_current_window set_rp_granted_units
       set_lp_granted_units set_fca_owed set_DLSw_wbuf].
  rewrite int32_small
    by (pose proof (window_range _ _
                      (rd_range rbuf (HDR_len rbuf + CAP_IPW_OFF + 2))
                      (rd_range rbuf (HDR_len rbuf + CAP_IPW_OFF + 3))); lia).
  repeat split; try reflexivity; try assumption.
Qed.

Lemma C5_witness :
  MSG_type (cap_request 20) = CAP_EXCHANGE /\
  GDS_id (cap_request 20) = 0x1520 /\
  fc_current_window (fst (fst (proc_DLSw (cap_request 20) main_init))) = 20 /\
  rp_granted_units (fst (fst (proc_DLSw (cap_request 20) main_init))) = 20 /\
  skipn 72 (bytes (DLSw_wbuf (fst (fst (proc_DLSw (cap_request 20) main_init))))
                  0 76)
    = [0x00; 0x04; 0x15; 0x21].
Proof.
  destruct (C5_cap_exchange_request (cap_request 20) main_init
              eq_refl eq_refl)
    as (_ & Hcw & Hrp & _ & _ & _ & Hreply & _).
  split; [reflexivity |]. split; [reflexivity |].
  split; [exact Hcw |]. split; [exact Hrp |].
  change (Z.to_nat (snd (fst (proc_DLSw (cap_request 20) main_init))))
    with 76%nat in Hreply.
  rewrite Hreply. reflexivity.
Defined.

Lemma switch_HALT_DL : forall rbuf g n,
  MSG_type rbuf = HALT_DL ->
  switch_MSG_type rbuf g n = case_HALT_DL rbuf g n.
Proof. intros rbuf g n H. unfold switch_MSG_type. rewrite H. reflexivity. Qed.

(** The flow control part sends nothing but an IFCM. *)
Lemma flow_control_rx_events : forall rbuf g e,
  In e (snd (flow_control_rx rbuf g)) -> is_IFCM_RPT e = true.
Proof.
  intros rbuf g e. unfold flow_control_rx.
  repeat match goal with
         | |- context [if ?c then _ else _] => destruct c
         end;
    cbn [snd]; intros He;
    first [ destruct He as [<- | []]; apply IFCM_counted | destruct He ].
Qed.

Lemma IFCM_events_filtered : forall tr,
  (forall e, In e tr -> is_IFCM_RPT e = true) ->
  filter (is_msg DL_HALTED) tr = [] /\ filter is_rs232 tr = [].
Proof.
  induction tr as [| e tr IH]; intros H; [split; reflexivity |].
  assert (He : is_IFCM_RPT e = true) by (apply H; left; reflexivity).
  destruct IH as [IH1 IH2]; [intros e' H'; apply H; right; exact H' |].
  cbn [filter]. rewrite IH1, IH2.
  destruct e as [msg | sig | frame]; try discriminate He.
  cbn [is_IFCM_RPT is_msg is_rs232] in *.
  apply andb_prop in He. destruct He as [He _]. apply Z.eqb_eq in He.
  rewrite He. split; reflexivity.
Qed.

(** C6.  A HALT_DL message (a control message, header length 72) makes
    the router, whatever the circuit state, send exactly one DL_HALTED
    message -- header only, direction origin, the origin correlator and
    port id of the request in the remote fields -- and exactly one byte on
    the RS232 signal connection, in which the RTS bit is low; the circuit
    state is unchanged. *)
Theorem C6_halt_dl : forall rbuf g,
  MSG_type rbuf = HALT_DL ->
  HDR_len rbuf = LEN_CTRL ->
  let g' := fst (main_recv rbuf g) in
  let tr := snd (main_recv rbuf g) in
  let reply := bytes (DLSw_wbuf g') 0 72 in
  filter (is_msg DL_HALTED) tr = [send_dlsw reply] /\
  nth 14 reply 0 = DL_HALTED /\
  nth 38 reply 0 = DIR_ORG /\
  nth 2 reply 0 = 0 /\ nth 3 reply 0 = 0 /\
  firstn 4 (skipn 4 reply) = bytes rbuf HDR_ODLC 4 /\
  firstn 4 (skipn 8 reply) = bytes rbuf HDR_ODPID 4 /\
  filter is_rs232 tr = [send_rs232 0xF7] /\
  Z.land 0xF7 RTS = 0 /\
  state g' = state g.
Proof.
  intros rbuf g Htyp Hlen.
  pose proof (flow_control_rx_frame rbuf g) as Hf.
  pose proof (flow_control_rx_events rbuf g) as He.
  unfold main_recv, proc_DLSw.
  destruct (flow_control_rx rbuf g) as [[g1 n1] tr1].
  cbn [fst snd] in Hf, He. destruct Hf as (_ & _ & _ & _ & Hst & _).
  destruct (IFCM_events_filtered tr1 He) as [Hm Hr].
  rewrite (switch_HALT_DL rbuf g1 n1 Htyp).
  unfold case_HALT_DL. rewrite Hlen.
  change (negb (LEN_CTRL =? 0)) with true. cbv iota zeta.
  cbn [fst snd state DLSw_wbuf set_DLSw_wbuf].
  change (Z.to_nat LEN_CTRL) with 72%nat.
  rewrite !filter_app, Hm, Hr.
  change (u8 (Z.lnot RTS)) with 0xF7.
  cbn [filter is_rs232 app].
  assert (Htype :
    nth 14 (bytes
      (memcpy (memcpy (store (store (store (store
         (memcpy (DLSw_wbuf g1) 0 rbuf 0 LEN_CTRL)
         HDR_MLEN (Z.land (rd (memcpy (DLSw_wbuf g1) 0 rbuf 0 LEN_CTRL) HDR_MLEN) 0))
         (HDR_MLEN + 1)
         (Z.land (rd (store (memcpy (DLSw_wbuf g1) 0 rbuf 0 LEN_CTRL) HDR_MLEN
                        (Z.land (rd (memcpy (DLSw_wbuf g1) 0 rbuf 0 LEN_CTRL) HDR_MLEN) 0))
                     (HDR_MLEN + 1)) 0))
         HDR_MTYP DL_HALTED) HDR_DIR DIR_ORG)
         HDR_RDLC rbuf HDR_ODLC 4) HDR_RDPID rbuf HDR_ODPID 4) 0 72) 0
    = DL_HALTED).
  { unfold bytes. cbn [map seq nth Z.of_nat Pos.of_succ_nat Pos.succ].
    hdr_consts. repeat rd_step. reflexivity. }
  cbn [is_msg]. rewrite Htype. cbn [Z.eqb Pos.eqb DL_HALTED].
  change (15 =? 15) with true. cbv iota.
  split; [reflexivity |]. split; [exact Htype |].
  unfold bytes.
  cbn [map seq nth firstn skipn Z.of_nat Pos.of_succ_nat Pos.succ].
  hdr_consts. repeat rd_step. rewrite !Z.land_0_r.
  repeat split; try reflexivity; try assumption.
Qed.

Lemma C6_witness :
  MSG_type halt_dl_msg = HALT_DL /\
  HDR_len halt_dl_msg = LEN_CTRL /\
  filter is_rs232 (snd (main_recv halt_dl_msg (paced 4)))
    = [send_rs232 0xF7] /\
  length (filter (is_msg DL_HALTED) (snd (main_recv halt_dl_msg (paced 4))))
    = 1%nat /\
  state (fst (main_recv halt_dl_msg (paced 4))) = CIRCUIT_ESTABLISHED.
Proof.
  destruct (C6_halt_dl halt_dl_msg (paced 4) eq_refl eq_refl)
    as (Hm & _ & _ & _ & _ & _ & _ & Hr & _ & Hst).
  split; [reflexivity |]. split; [reflexivity |].
  split; [exact Hr |]. split.
  - rewrite Hm. reflexivity.
  - rewrite Hst. reflexivity.
Defined.

End DLSw_facts.

(** ** The Line Interface Base *)

Section LIB_facts.
Import LIB.

Lemma upd_same : forall (A : Type) (a : Z -> A) k v, upd a k v k = v.
Proof. intros. unfold upd. rewrite Z.eqb_refl. reflexivity. Qed.

Lemma u8_land : forall x, u8 x = Z.land x 255.
Proof. intros x. unfold u8. symmetry. apply (Z.land_ones x 8). lia. Qed.

(** The byte left by a lost connection: DCD, DSR and RI are low, the
    other signals are as they were. *)
Lemma drop_DCD_DSR_RI_low : forall x,
  Z.land (drop_DCD_DSR_RI x) (Z.lor (Z.lor DCD DSR) RI) = 0.
Proof.
  intros x. unfold drop_DCD_DSR_RI. rewrite u8_land.
  rewrite <- !Z.land_assoc.
  change (Z.land (Z.lnot (Z.lor (Z.lor DCD DSR) RI))
            (Z.land 255 (Z.lor (Z.lor DCD DSR) RI))) with 0.
  apply Z.land_0_r.
Qed.

Lemma drop_DCD_DSR_RI_keeps_DTR : forall x,
  Z.land (drop_DCD_DSR_RI x) DTR = Z.land x DTR.
Proof.
  intros x. unfold drop_DCD_DSR_RI. rewrite u8_land.
  rewrite <- !Z.land_assoc.
  reflexivity.
Qed.

Lemma ShiftLeft_loop_rd : forall n i b j,
  rd (ShiftLeft_loop n i b) j
    = if (i - 1 <=? j) && (j <? i - 1 + Z.of_nat n)
      then rd b (j + 1) else rd b j.
Proof.
  induction n as [| n IH]; intros i b j.
  - cbn [ShiftLeft_loop].
    destruct (Z.leb_spec (i - 1) j); destruct (Z.ltb_spec j (i - 1 + Z.of_nat 0));
      cbn [andb]; try reflexivity; lia.
  - cbn [ShiftLeft_loop]. rewrite IH. rewrite Nat2Z.inj_succ.
    destruct (Z.leb_spec (i + 1 - 1) j);
      destruct (Z.ltb_spec j (i + 1 - 1 + Z.of_nat n));
      destruct (Z.leb_spec (i - 1) j);
      destruct (Z.ltb_spec j (i - 1 + Z.succ (Z.of_nat n)));
      cbn [andb]; try lia.
    all: try (rewrite rd_store_other by lia; reflexivity).
    replace j with (i - 1) by lia. rewrite rd_store_same.
    replace (i - 1 + 1) with i by lia. apply u8_idem.
Qed.

Lemma bytes_ShiftLeft : forall b len,
  1 <= len ->
  bytes (fst (ShiftLeft b len)) 0 (Z.to_nat (len - 1))
    = tl (bytes b 0 (Z.to_nat len)).
Proof.
  intros b len H. unfold ShiftLeft. cbn [fst].
  replace (Z.to_nat len) with (S (Z.to_nat (len - 1))) by lia.
  unfold bytes. cbn [seq map tl].
  rewrite <- seq_shift, map_map. apply map_ext_in.
  intros a Ha. apply in_seq in Ha.
  rewrite ShiftLeft_loop_rd.
  destruct (Z.leb_spec (1 - 1) (0 + Z.of_nat a));
    destruct (Z.ltb_spec (0 + Z.of_nat a)
                (1 - 1 + Z.of_nat (Z.to_nat (len - 1))));
    cbn [andb]; try lia.
  f_equal. lia.
Qed.

(** C10.  With a byte in the receive buffer of the line, [proc_LIBrdata]
    called in the states 4 and 5 returns the first byte and leaves the LIB
    as it is (a following call returns that byte again), with return value
    1; called in another state it returns the first byte and removes it,
    the bytes behind it moving one place to the front, with return value 2
    when the buffer is now empty and 1 otherwise.  With the buffer empty
    and nothing to read from the line the return value is 0. *)
Theorem C10_proc_LIBrdata_peek_or_consume :
  (forall LIBrchar state line n s,
     0 < LIBrlen (LIBline s line) <= BUFLEN_327x ->
     state = 0x4 \/ state = 0x5 ->
     proc_LIBrdata LIBrchar state line n s
       = (1, rd (LIB_rbuf (LIBline s line)) 0, s, [])) /\
  (forall LIBrchar state line n s,
     0 < LIBrlen (LIBline s line) <= BUFLEN_327x ->
     state <> 0x4 -> state <> 0x5 ->
     let l := LIBline s line in
     let b' := fst (ShiftLeft (LIB_rbuf l) (LIBrlen l)) in
     proc_LIBrdata LIBrchar state line n s
       = (if LIBrlen l =? 1 then 2 else 1, rd (LIB_rbuf l) 0,
          set_LIBline line (set_LIBrlen (LIBrlen l - 1) (set_LIB_rbuf b' l)) s,
          []) /\
     bytes b' 0 (Z.to_nat (LIBrlen l - 1))
       = tl (bytes (LIB_rbuf l) 0 (Z.to_nat (LIBrlen l)))) /\
  (forall LIBrchar state line n s,
     LIBrlen (LIBline s line) = 0 ->
     (0 < d327x_fd (LIBline s line) -> d_alive n = true -> d_pending n = []) ->
     fst (fst (fst (proc_LIBrdata LIBrchar state line n s))) = 0 /\
     snd (fst (fst (proc_LIBrdata LIBrchar state line n s))) = LIBrchar).
Proof.
  split; [| split].
  - intros ch state line n s Hlen Hst. unfold proc_LIBrdata.
    destruct (Z.eqb_spec (LIBrlen (LIBline s line)) 0); [lia |].
    destruct (Z.ltb_spec 0 (LIBrlen (LIBline s line))); [| lia].
    replace ((state =? 4) || (state =? 5)) with true
      by (destruct Hst as [-> | ->]; reflexivity).
    cbn [negb].
    destruct (Z.eqb_spec (LIBrlen (LIBline s line)) 0); [lia | reflexivity].
  - intros ch state line n s Hlen H4 H5. cbv zeta. split.
    + unfold proc_LIBrdata, BUFLEN_327x in *.
      destruct (Z.eqb_spec (LIBrlen (LIBline s line)) 0); [lia |].
      destruct (Z.ltb_spec 0 (LIBrlen (LIBline s line))); [| lia].
      destruct (Z.eqb_spec state 4); [contradiction |].
      destruct (Z.eqb_spec state 5); [contradiction |].
      cbn [orb negb]. unfold ShiftLeft. cbn [fst snd].
      rewrite u16_small by lia.
      cbn [LIBline set_LIBline]. rewrite upd_same. cbn [LIBrlen set_LIBrlen].
      destruct (Z.eqb_spec (LIBrlen (LIBline s line) - 1) 0);
        destruct (Z.eqb_spec (LIBrlen (LIBline s line)) 1);
        try lia; reflexivity.
    + apply bytes_ShiftLeft. lia.
  - intros ch state line n s Hlen Hnone. unfold proc_LIBrdata.
    rewrite Hlen. cbn [Z.eqb].
    unfold ReadLIB, IsSocketConnected.
    cbn [LIBline set_LIBline]. rewrite upd_same. cbn [d327x_fd set_LIBrlen].
    destruct (Z.ltb_spec 0 (d327x_fd (LIBline s line))) as [Hfd | Hfd].
    + destruct (Z.ltb_spec (d327x_fd (LIBline s line)) 1); [lia |].
      destruct (d_alive n) eqn:Ha.
      * rewrite (Hnone Hfd eq_refl). cbn [length Z.of_nat Z.ltb Z.compare].
        cbn [LIBline set_LIBline]. rewrite upd_same. cbn [LIBrlen set_LIBrlen Z.ltb Z.compare].
        split; reflexivity.
      * destruct (epoll_ok n);
          cbn [LIBline set_LIBline set_RS232]; rewrite upd_same;
          cbn [LIBrlen set_LIBrlen set_d327x_fd Z.ltb Z.compare];
          split; reflexivity.
    + cbn [LIBline set_LIBline]. rewrite upd_same.
      cbn [LIBrlen set_LIBrlen Z.ltb Z.compare]. split; reflexivity.
Qed.

Lemma C10_witness :
  proc_LIBrdata 0 0x5 0 idle_net received_lib = (1, 0x7E, received_lib, []) /\
  fst (fst (fst (proc_LIBrdata 0 0x7 0 idle_net received_lib))) = 1 /\
  snd (fst (fst (proc_LIBrdata 0 0x7 0 idle_net received_lib))) = 0x7E /\
  bytes (fst (ShiftLeft (LIB_rbuf (LIBline received_lib 0)) 3)) 0 2
    = [0xC1; 0x11] /\
  fst (fst (fst (proc_LIBrdata 0 0x7 0 idle_net online_lib))) = 0.
Proof.
  destruct C10_proc_LIBrdata_peek_or_consume as (Hpeek & Hcons & Hnone).
  split; [| split; [| split; [| split]]].
  - apply (Hpeek 0 0x5 0 idle_net received_lib); [change (0 < 3 <= 16384); lia | right; reflexivity].
  - destruct (Hcons 0 0x7 0 idle_net received_lib) as [-> _];
      [change (0 < 3 <= 16384); lia | discriminate | discriminate | reflexivity].
  - destruct (Hcons 0 0x7 0 idle_net received_lib) as [-> _];
      [change (0 < 3 <= 16384); lia | discriminate | discriminate | reflexivity].
  - destruct (Hcons 0 0x7 0 idle_net received_lib) as [_ H];
      [change (0 < 3 <= 16384); lia | discriminate | discriminate | exact H].
  - apply (Hnone 0 0x7 0 idle_net online_lib); [reflexivity | reflexivity].
Defined.

(** Setting or clearing the bits [m] leaves a bit [k] outside of [m]. *)
Lemma land_lor_keep : forall x m k,
  Z.land m k = 0 -> Z.land 255 k = k ->
  Z.land (u8 (Z.lor x m)) k = Z.land x k.
Proof.
  intros x m k Hm Hk. rewrite u8_land, <- Z.land_assoc, Hk.
  rewrite Z.land_lor_distr_l, Hm. apply Z.lor_0_r.
Qed.

Lemma land_lnot_keep : forall x m k,
  Z.land (Z.lnot m) k = k -> Z.land 255 k = k ->
  Z.land (u8 (Z.land x (Z.lnot m))) k = Z.land x k.
Proof.
  intros x m k Hm Hk. rewrite u8_land, <- !Z.land_assoc, Hk, Hm. reflexivity.
Qed.

(** The four rules leave the connections and the DTR of the line. *)
Lemma ReadSig_local_keeps : forall k s,
  LIBline (ReadSig_local k s) = LIBline s /\
  Z.land (RS232 (ReadSig_local k s) k) DTR = Z.land (RS232 s k) DTR.
Proof.
  intros k s. unfold ReadSig_local. cbv zeta.
  set (s0 := set_RS232x k 0 s).
  assert (H0 : LIBline s0 = LIBline s /\ RS232 s0 k = RS232 s k)
    by (split; reflexivity).
  clearbody s0.
  set (s1 := DTR_raises_DSR k s0).
  assert (H1 : LIBline s1 = LIBline s0 /\
               Z.land (RS232 s1 k) DTR = Z.land (RS232 s0 k) DTR).
  { subst s1. unfold DTR_raises_DSR. destruct (_ && _); [| split; reflexivity].
    cbn [LIBline RS232 set_RS232]. rewrite upd_same.
    split; [reflexivity | apply land_lor_keep; reflexivity]. }
  clearbody s1.
  set (s2 := RTS_goes_remote k s1).
  assert (H2 : LIBline s2 = LIBline s1 /\ RS232 s2 k = RS232 s1 k).
  { subst s2. unfold RTS_goes_remote. destruct (_ && _); split; reflexivity. }
  clearbody s2.
  set (s3 := DTR_drops_DSR k s2).
  assert (H3 : LIBline s3 = LIBline s2 /\
               Z.land (RS232 s3 k) DTR = Z.land (RS232 s2 k) DTR).
  { subst s3. unfold DTR_drops_DSR. destruct (_ && _); [| split; reflexivity].
    cbn [LIBline RS232 set_RS232]. rewrite upd_same.
    split; [reflexivity | apply land_lnot_keep; reflexivity]. }
  clearbody s3.
  assert (H4 : LIBline (DTR_drops_RTS k s3) = LIBline s3 /\
               Z.land (RS232 (DTR_drops_RTS k s3) k) DTR
                 = Z.land (RS232 s3 k) DTR).
  { unfold DTR_drops_RTS. destruct (_ && _); [| split; reflexivity].
    cbn [LIBline RS232 set_RS232 set_RS232r set_RS232x]. rewrite upd_same.
    split; [reflexivity | apply land_lnot_keep; reflexivity]. }
  destruct H0 as [A0 B0], H1 as [A1 B1], H2 as [A2 B2], H3 as [A3 B3],
           H4 as [A4 B4].
  split; [congruence |].
  rewrite B4, B3, B2, B1, B0. reflexivity.
Qed.

Lemma ReadSig_lost : forall k n s,
  0 < s327x_fd (LIBline s k) -> s_alive n = false ->
  let s' := fst (ReadSig k n s) in
  d327x_fd (LIBline s' k) = 0 /\
  s327x_fd (LIBline s' k) = 0 /\
  Z.land (RS232 s' k) (Z.lor (Z.lor DCD DSR) RI) = 0 /\
  Z.land (RS232 s' k) DTR = Z.land (RS232 s k) DTR.
Proof.
  intros k n s Hfd Hdead.
  destruct (ReadSig_local_keeps k s) as [Hl Hr].
  unfold ReadSig. cbv zeta. rewrite Hl.
  unfold IsSocketConnected. rewrite Hdead.
  destruct (Z.ltb_spec 0 (s327x_fd (LIBline s k))); [| lia].
  destruct (Z.ltb_spec (s327x_fd (LIBline s k)) 1); [lia |].
  cbn [fst LIBline RS232 set_LIBline set_RS232].
  rewrite !upd_same. cbn [d327x_fd s327x_fd set_d327x_fd set_s327x_fd].
  split; [reflexivity |]. split; [reflexivity |].
  split; [apply drop_DCD_DSR_RI_low |].
  rewrite <- Hr. unfold drop_DCD_DSR_RI. apply land_lnot_keep; reflexivity.
Qed.

Lemma ReadLIB_lost : forall k n s,
  0 < d327x_fd (LIBline s k) -> d_alive n = false ->
  let s' := snd (fst (ReadLIB k n s)) in
  d327x_fd (LIBline s' k) = 0 /\
  RS232 s' k = drop_DCD_DSR_RI (RS232 s k).
Proof.
  intros k n s Hfd Hdead. unfold ReadLIB, IsSocketConnected.
  cbn [LIBline set_LIBline]. rewrite upd_same. cbn [d327x_fd set_LIBrlen].
  destruct (Z.ltb_spec 0 (d327x_fd (LIBline s k))); [| lia].
  destruct (Z.ltb_spec (d327x_fd (LIBline s k)) 1); [lia |].
  rewrite Hdead.
  destruct (epoll_ok n);
    cbn [fst snd LIBline RS232 set_LIBline set_RS232];
    rewrite !upd_same; cbn [d327x_fd set_d327x_fd];
    split; reflexivity.
Qed.

(** C9 (as the code has it).  When [LIB_thread] starts, the local signal
    byte of every line is 0.  When [ReadLIB] finds the data connection
    lost, or [ReadSig] the signal connection, the line is left without data
    connection and with DCD, DSR and RI low; the loss does not clear DTR,
    which the NCP drives: it keeps the value it had. *)
Theorem C9_signals_without_connection :
  (forall MAX_LINES junk k,
     0 <= k < MAX_LINES -> RS232 (LIB_thread_init MAX_LINES junk) k = 0) /\
  (forall k n s,
     0 < d327x_fd (LIBline s k) -> d_alive n = false ->
     let s' := snd (fst (ReadLIB k n s)) in
     d327x_fd (LIBline s' k) = 0 /\
     Z.land (RS232 s' k) (Z.lor (Z.lor DCD DSR) RI) = 0 /\
     Z.land (RS232 s' k) DTR = Z.land (RS232 s k) DTR) /\
  (forall k n s,
     0 < s327x_fd (LIBline s k) -> s_alive n = false ->
     let s' := fst (ReadSig k n s) in
     d327x_fd (LIBline s' k) = 0 /\
     s327x_fd (LIBline s' k) = 0 /\
     Z.land (RS232 s' k) (Z.lor (Z.lor DCD DSR) RI) = 0 /\
     Z.land (RS232 s' k) DTR = Z.land (RS232 s k) DTR).
Proof.
  split; [| split].
  - intros M junk k Hk. unfold LIB_thread_init. cbn [RS232].
    destruct (Z.leb_spec 0 k); destruct (Z.ltb_spec k M); cbn [andb];
      try lia; reflexivity.
  - intros k n s Hfd Hdead.
    destruct (ReadLIB_lost k n s Hfd Hdead) as [H1 H2]. cbv zeta.
    rewrite H2. split; [exact H1 |].
    split; [apply drop_DCD_DSR_RI_low | apply drop_DCD_DSR_RI_keeps_DTR].
  - exact ReadSig_lost.
Qed.

Lemma C9_witness :
  RS232 (LIB_thread_init 2 online_lib) 0 = 0 /\
  Z.land (RS232 (snd (fst (ReadLIB 0 dead_net online_lib))) 0)
         (Z.lor (Z.lor DCD DSR) RI) = 0 /\
  Z.land (RS232 (fst (ReadSig 0 dead_net online_lib)) 0)
         (Z.lor (Z.lor DCD DSR) RI) = 0.
Proof.
  destruct C9_signals_without_connection as (Hinit & Hlib & Hsig).
  split; [| split].
  - apply (Hinit 2 online_lib 0). lia.
  - apply (Hlib 0 dead_net online_lib); reflexivity.
  - apply (Hsig 0 dead_net online_lib); reflexivity.
Defined.

(** The data connection of line 0 is lost while the NCP holds DTR up:
    afterwards the line has no data connection and its signal byte is
    DTR, not 0. *)
Lemma C9_counterexample :
  d327x_fd (LIBline (snd (fst (ReadLIB 0 dead_net online_lib))) 0) = 0 /\
  RS232 (snd (fst (ReadLIB 0 dead_net online_lib))) 0 = DTR /\
  RS232 (snd (fst (ReadLIB 0 dead_net online_lib))) 0 <> 0.
Proof.
  split; [reflexivity |]. split; [reflexivity |]. discriminate.
Qed.

End LIB_facts.

(** ** The scanner *)

Section CS2_facts.
Import CS2.

(** The case D of the switch never calls the LIB. *)
Lemma case_D_keeps_LIB : forall line s,
  L (fst (case_D line s)) = L s /\
  snd (case_D line s) = [] /\
  icw_lne_stat (fst (case_D line s)) = icw_lne_stat s.
Proof.
  intros line s. unfold case_D.
  destruct (icw_lcd s line =? 12); repeat split; reflexivity.
Qed.

Lemma switch_pcf_D : forall line n s,
  icw_pcf s line = 0xD -> switch_pcf line n s = case_D line s.
Proof. intros line n s H. unfold switch_pcf. rewrite H. reflexivity. Qed.

(** A pass in which the line is in PCF D leaves the LIB as it is: nothing
    is sent, the transmit buffer keeps its bytes, and the line state is the
    one the pass started with. *)
Lemma scan_line_D_keeps_LIB : forall line n s,
  icw_pcf (adopt_pcf line s) line = 0xD ->
  L (fst (scan_line line n s)) = L s /\
  snd (scan_line line n s) = [] /\
  icw_lne_stat (fst (scan_line line n s)) line = icw_lne_stat s line.
Proof.
  intros line n s H. unfold scan_line.
  rewrite (switch_pcf_D line n _ H).
  destruct (case_D_keeps_LIB line (adopt_pcf line s)) as (HL & Htr & Hst).
  destruct (case_D line (adopt_pcf line s)) as [s1 tr1].
  cbn [fst snd] in *. subst tr1.
  assert (Ha : L (adopt_pcf line s) = L s /\
               icw_lne_stat (adopt_pcf line s) line = icw_lne_stat s line).
  { revert H. unfold adopt_pcf.
    destruct (negb (icw_pcf s line =? icw_pcf_nxt s line));
      [| split; reflexivity].
    destruct (Z.eqb_spec (icw_pcf_nxt s line) 0) as [E | E].
    - cbn [icw_pcf set_icw_pcf set_icw_pcf_prev set_icw_lne_stat icw_pcf_nxt].
      rewrite upd_same, E. discriminate.
    - intros _. split; reflexivity. }
  destruct Ha as [Ha1 Ha2].
  assert (Hp : L (save_pcf line (post_process line s1)) = L s1 /\
               icw_lne_stat (save_pcf line (post_process line s1))
                 = icw_lne_stat s1).
  { unfold save_pcf, post_process.
    destruct (truthy (CS2_req_L2_int s1));
      cbn [icw_pcf icw_pcf_nxt set_icw_pcf_prev set_abar_int set_svc_req_L2
           set_CS2_req_L2_int];
      match goal with
      | |- context [if ?c then _ else _] => destruct c
      end; split; reflexivity. }
  destruct Hp as [Hp1 Hp2].
  rewrite Hp1, Hp2, HL, Hst, Ha1, Ha2. repeat split; reflexivity.
Qed.

(** The LIB itself ends a transmission on state C and on state D alike:
    the buffer is sent as one frame and the length reset. *)
Lemma proc_LIBtdata_flushes_on_C_and_D : forall ch state line s,
  LIB.LIBsync (LIB.LIBline s line) = 1 ->
  state = 0xC \/ state = 0xD ->
  let l := LIB.LIBline s line in
  snd (LIB.proc_LIBtdata ch state line s)
    = [LIB.send_data line
         (bytes (LIB.LIB_tbuf l) 0 (Z.to_nat (LIB.LIBtlen l)))] /\
  LIB.LIBtlen (LIB.LIBline (fst (LIB.proc_LIBtdata ch state line s)) line) = 0 /\
  LIB.LIBsync (LIB.LIBline (fst (LIB.proc_LIBtdata ch state line s)) line) = 0.
Proof.
  intros ch state line s Hsync Hst. unfold LIB.proc_LIBtdata. rewrite Hsync.
  replace ((state =? 12) || (state =? 13)) with true
    by (destruct Hst as [-> | ->]; reflexivity).
  replace (state =? 8) with false by (destruct Hst as [-> | ->]; reflexivity).
  cbn [Z.eqb Pos.eqb andb negb].
  repeat (progress (cbn [LIB.LIBline LIB.set_LIBline LIB.LIBsync LIB.LIBtlen
                         LIB.LIB_tbuf LIB.set_LIBsync LIB.set_LIBtlen
                         LIB.set_prev_state Z.eqb andb fst snd];
                    rewrite ?upd_same)).
  repeat split; reflexivity.
Qed.

(** Entering PCF C on an SDLC line that has transmitted: the frame is
    sent, the transmit length is 0 and the line state is RX. *)
Lemma case_C_flushes : forall line s,
  icw_lcd s line = 0x9 ->
  icw_pcf s line = 0xC -> icw_pcf_prev s line <> 0xC ->
  LIB.LIBsync (LIB.LIBline (L s) line) = 1 ->
  let l := LIB.LIBline (L s) line in
  snd (case_C line s)
    = [LIB.send_data line
         (bytes (LIB.LIB_tbuf l) 0 (Z.to_nat (LIB.LIBtlen l)))] /\
  LIB.LIBtlen (LIB.LIBline (L (fst (case_C line s))) line) = 0 /\
  icw_lne_stat (fst (case_C line s)) line = RX.
Proof.
  intros line s Hlcd Hpcf Hprev Hsync.
  destruct (proc_LIBtdata_flushes_on_C_and_D (transmitChar s) 0xC line (L s)
              Hsync (or_introl eq_refl)) as (Htr & Hlen & _).
  unfold case_C, call_LIBtdata. rewrite Hlcd, Hpcf.
  cbn [Z.eqb Pos.eqb].
  destruct (Z.eqb_spec (icw_pcf_prev s line) 12); [contradiction |].
  cbn [negb].
  destruct (LIB.proc_LIBtdata (transmitChar s) 12 line (L s)) as [l1 tr1].
  cbn [fst snd] in *.
  cbn [fst snd L icw_lne_stat set_L set_icw_lne_stat set_icw_scf
       set_icw_pcf_nxt set_CS2_req_L2_int set_RS232 LIB.set_RS232
       LIB.LIBline].
  rewrite ?upd_same. repeat split; assumption.
Qed.

(** C7 on a line that has transmitted: SDLC line 0 holds the three bytes
    C1 11 00 in its transmit buffer, LIBsync is set.  When the NCP ends the
    transmission with PCF D, the pass of the scanner sends nothing, the
    three bytes stay in the buffer and the line state stays TX; with PCF C
    the frame is sent, the length reset and the line state RX. *)
Lemma C7_state_D_does_not_flush :
  LIB.LIBsync (LIB.LIBline (L turnaround_D) 0) = 1 /\
  LIB.LIBtlen (LIB.LIBline (L turnaround_D) 0) = 3 /\
  icw_pcf_nxt turnaround_D 0 = 0xD /\
  snd (scan_line 0 LIB.idle_net turnaround_D) = [] /\
  LIB.LIBtlen (LIB.LIBline (L (fst (scan_line 0 LIB.idle_net turnaround_D))) 0)
    = 3 /\
  icw_lne_stat (fst (scan_line 0 LIB.idle_net turnaround_D)) 0 = TX /\
  snd (scan_line 0 LIB.idle_net turnaround_C)
    = [LIB.send_data 0 [0xC1; 0x11; 0x00]] /\
  LIB.LIBtlen (LIB.LIBline (L (fst (scan_line 0 LIB.idle_net turnaround_C))) 0)
    = 0 /\
  icw_lne_stat (fst (scan_line 0 LIB.idle_net turnaround_C)) 0 = RX.
Proof. repeat split; vm_compute; reflexivity. Qed.

(** C8 (as the code has it).  While svc_req_L2 is ON, the switch of the
    scanner does nothing for a line in PCF 6, 7, 8, 9 or A: the variables
    of the scanner and of the LIB are unchanged and nothing is read from or
    written to the line; the whole pass then consists of adopting and
    saving the PCF. *)
Theorem C8_L2_outstanding_suspends_6_to_A :
  (forall line n s,
     svc_req_L2 s = ON ->
     In (icw_pcf s line) [0x6; 0x7; 0x8; 0x9; 0xA] ->
     switch_pcf line n s = (s, [])) /\
  (forall line n s,
     svc_req_L2 s = ON -> CS2_req_L2_int s = OFF ->
     In (icw_pcf (adopt_pcf line s) line) [0x6; 0x7; 0x8; 0x9; 0xA] ->
     scan_line line n s = (save_pcf line (adopt_pcf line s), [])).
Proof.
  assert (Hsw : forall line n s,
             svc_req_L2 s = ON ->
             In (icw_pcf s line) [0x6; 0x7; 0x8; 0x9; 0xA] ->
             switch_pcf line n s = (s, [])).
  { intros line n s Hsvc Hin. unfold switch_pcf.
    cbn [In] in Hin.
    destruct Hin as [E | [E | [E | [E | [E | []]]]]]; rewrite <- E;
      cbn [Z.eqb Pos.eqb orb];
      unfold case_6, case_7, case_8, case_9, case_A, L2_active;
      rewrite Hsvc; reflexivity. }
  split; [exact Hsw |].
  intros line n s Hsvc Hreq Hin. unfold scan_line.
  assert (Hsvc' : svc_req_L2 (adopt_pcf line s) = ON).
  { unfold adopt_pcf.
    repeat match goal with
           | |- context [if ?c then _ else _] => destruct c
           end; exact Hsvc. }
  assert (Hreq' : CS2_req_L2_int (adopt_pcf line s) = OFF).
  { unfold adopt_pcf.
    repeat match goal with
           | |- context [if ?c then _ else _] => destruct c
           end; exact Hreq. }
  rewrite (Hsw line n _ Hsvc' Hin).
  unfold post_process. rewrite Hreq'. reflexivity.
Qed.

Lemma C8_witness :
  svc_req_L2 sdlc_7_pending = ON /\
  icw_pcf sdlc_7_pending 0 = 0x7 /\
  LIB.LIBrlen (LIB.LIBline (L sdlc_7_pending) 0) = 3 /\
  switch_pcf 0 LIB.idle_net sdlc_7_pending = (sdlc_7_pending, []).
Proof.
  split; [reflexivity |]. split; [reflexivity |]. split; [reflexivity |].
  apply (proj1 C8_L2_outstanding_suspends_6_to_A 0 LIB.idle_net sdlc_7_pending).
  - reflexivity.
  - right; left; reflexivity.
Defined.

(** A BSC line in PCF D while svc_req_L2 is ON: the switch sets the next
    PCF to 5 and requests a level 2 interrupt. *)
Lemma C8_counterexample :
  svc_req_L2 bsc_D_pending = ON /\
  icw_pcf bsc_D_pending 0 = 0xD /\
  icw_pcf_nxt bsc_D_pending 0 = 0xD /\
  CS2_req_L2_int bsc_D_pending = OFF /\
  icw_pcf_nxt (fst (switch_pcf 0 LIB.idle_net bsc_D_pending)) 0 = 0x5 /\
  CS2_req_L2_int (fst (switch_pcf 0 LIB.idle_net bsc_D_pending)) = ON /\
  switch_pcf 0 LIB.idle_net bsc_D_pending <> (bsc_D_pending, []).
Proof.
  repeat (split; [reflexivity |]).
  intros H. apply (f_equal (fun p => CS2_req_L2_int (fst p))) in H.
  vm_compute in H. discriminate H.
Qed.

End CS2_facts.
